(** * Fixed-wing PID autotune: session controller, commit scheduler and
      per-axis tuning law

    Shallow embedding of [src/main/flight/pid_autotune.c].  The C code
    keeps its state in file-scope statics and talks to the rest of the
    firmware through a handful of globals and accessors; here all of that
    is one explicit [world] threaded through a small state monad.
    [float] is IEEE 754 binary32, computed with the parametric
    specification of the standard library at precision 24. *)

From Stdlib Require Import ZArith Bool List Lia.
From Stdlib Require Import Floats.SpecFloat.
Import ListNotations.
Local Open Scope Z_scope.

(* ================================================================== *)
(** ** C scalar types                                                  *)
(* ================================================================== *)

(** [float]: binary32, round to nearest even. *)
Module F32.
Definition prec : Z := 24.
Definition emax : Z := 128.
Definition float : Type := spec_float.

(** Conversion of an integer to [float], and the literal [m * 2^e]. *)
Definition of_Z (z : Z) : float := binary_normalize prec emax z 0 false.
Definition lit (m e : Z) : float := binary_normalize prec emax m e false.

Definition mul : float -> float -> float := SFmul prec emax.
Definition div : float -> float -> float := SFdiv prec emax.
Definition ltb : float -> float -> bool := SFltb.
Definition leb : float -> float -> bool := SFleb.
Definition gtb (x y : float) : bool := SFltb y x.
Definition geb (x y : float) : bool := SFleb y x.

Definition is_nan (x : float) : bool :=
  match x with S754_nan => true | _ => false end.

(** Numerator of the exact value of a finite float over the
    denominator [2^k]; used to state rounding errors without reals. *)
Definition scaled (k : Z) (x : float) : Z :=
  match x with
  | S754_finite s m e => (if s then - Zpos m else Zpos m) * 2 ^ (e + k)
  | _ => 0
  end.
End F32.

Declare Scope f32_scope.
Delimit Scope f32_scope with f32.
Notation "x * y" := (F32.mul x y) : f32_scope.
Notation "x / y" := (F32.div x y) : f32_scope.
Notation "x <? y" := (F32.ltb x y) : f32_scope.
Notation "x >? y" := (F32.gtb x y) : f32_scope.
Notation "x >=? y" := (F32.geb x y) : f32_scope.

(** The float literals of the source. [0.1f] is [13421773 * 2^-27],
    [0.75f] is [3 * 2^-2]; the others are integers. *)
Definition f_0_1 : F32.float := Eval vm_compute in F32.lit 13421773 (-27).
Definition f_0_75 : F32.float := Eval vm_compute in F32.lit 3 (-2).
Definition f_1 : F32.float := Eval vm_compute in F32.of_Z 1.
Definition f_10 : F32.float := Eval vm_compute in F32.of_Z 10.
Definition f_50 : F32.float := Eval vm_compute in F32.of_Z 50.
Definition f_100 : F32.float := Eval vm_compute in F32.of_Z 100.

(** [fabsf] of <math.h>. *)
Definition fabsf (x : F32.float) : F32.float := SFabs x.

(** [n / d] rounded to the nearest integer, ties to even ([0 < d]). *)
Definition round_half_even (n d : Z) : Z :=
  let q := n / d in
  match 2 * (n mod d) ?= d with
  | Lt => q
  | Gt => q + 1
  | Eq => if Z.even q then q else q + 1
  end.

(** [lrintf] of <math.h> in the default rounding mode.  C leaves the
    result for NaN and the infinities unspecified; the model returns 0
    there and no theorem below relies on that value. *)
Definition lrintf (x : F32.float) : Z :=
  match x with
  | S754_finite s m e =>
      let v := match e with
               | Zneg k => round_half_even (Zpos m) (2 ^ Zpos k)
               | _ => Zpos m * 2 ^ e
               end in
      if s then - v else v
  | _ => 0
  end.

(** Modelled from the spec: [timeMs_t] and [timeDelta_t] are declared in
    a header that is not among the sources.  The spec's "monotonic
    millisecond counter" compared by "unsigned subtraction, wraparound-safe
    by construction" is taken as a 32-bit unsigned counter, and the dwell
    variable [stateTimeMs], which the source declares with the signed
    difference type, as its 32-bit two's complement reading. *)
Definition uint32 (z : Z) : Z := z mod 2 ^ 32.
Definition int32 (z : Z) : Z :=
  let u := z mod 2 ^ 32 in if u <? 2 ^ 31 then u else u - 2 ^ 32.

(** Modelled from the spec: the gain bank of the live controller is
    declared in flight/pid.h, which is not among the sources.  Its P, I
    and D fields are taken as unsigned 8-bit integers, so a stored
    [long] is reduced modulo 256. *)
Definition uint8 (z : Z) : Z := z mod 2 ^ 8.

(** Modelled from the spec: [MIN] (common/maths.h, not among the sources),
    "take the smaller of the two", as the usual [a < b ? a : b]. *)
Definition MIN (a b : F32.float) : F32.float :=
  if (a <? b)%f32 then a else b.

(** Modelled from the spec: [constrainf] (common/maths.h, not among the
    sources), "clamped to a fixed absolute range". *)
Definition constrainf (amt low high : F32.float) : F32.float :=
  if (amt <? low)%f32 then low
  else if (amt >? high)%f32 then high
  else amt.

(** Modelled from the spec: [DECIDEGREES_TO_DEGREES] (common/maths.h, not
    among the sources) turns tenths of a degree into degrees. *)
Definition DECIDEGREES_TO_DEGREES (angle : F32.float) : F32.float :=
  (angle / f_10)%f32.

(* ================================================================== *)
(** ** Data                                                            *)
(* ================================================================== *)

Inductive pidAutotuneState_e : Type :=
  | DEMAND_TOO_LOW
  | DEMAND_UNDERSHOOT
  | DEMAND_OVERSHOOT.

Definition pidAutotuneState_eqb (a b : pidAutotuneState_e) : bool :=
  match a, b with
  | DEMAND_TOO_LOW, DEMAND_TOO_LOW
  | DEMAND_UNDERSHOOT, DEMAND_UNDERSHOOT
  | DEMAND_OVERSHOOT, DEMAND_OVERSHOOT => true
  | _, _ => false
  end.

Record pidAutotuneData_t : Type := mkTune {
  state : pidAutotuneState_e;
  stateEnterTime : Z;
  pidSaturated : bool;
  gainP : F32.float;
  gainI : F32.float;
  gainD : F32.float
}.

Definition set_state v (d : pidAutotuneData_t) :=
  mkTune v (stateEnterTime d) (pidSaturated d) (gainP d) (gainI d) (gainD d).
Definition set_stateEnterTime v (d : pidAutotuneData_t) :=
  mkTune (state d) v (pidSaturated d) (gainP d) (gainI d) (gainD d).
Definition set_pidSaturated v (d : pidAutotuneData_t) :=
  mkTune (state d) (stateEnterTime d) v (gainP d) (gainI d) (gainD d).
Definition set_gainP v (d : pidAutotuneData_t) :=
  mkTune (state d) (stateEnterTime d) (pidSaturated d) v (gainI d) (gainD d).
Definition set_gainI v (d : pidAutotuneData_t) :=
  mkTune (state d) (stateEnterTime d) (pidSaturated d) (gainP d) v (gainD d).
Definition set_gainD v (d : pidAutotuneData_t) :=
  mkTune (state d) (stateEnterTime d) (pidSaturated d) (gainP d) (gainI d) v.

(** The three control axes. *)
Inductive flight_dynamics_index_t : Type := FD_ROLL | FD_PITCH | FD_YAW.

(** An array of [XYZ_AXIS_COUNT] elements, indexed by axis. *)
Record xyz (A : Type) : Type := mkXyz { at_roll : A; at_pitch : A; at_yaw : A }.
Arguments mkXyz {A} _ _ _.
Arguments at_roll {A} _.
Arguments at_pitch {A} _.
Arguments at_yaw {A} _.

Definition nth_axis {A} (v : xyz A) (axis : flight_dynamics_index_t) : A :=
  match axis with
  | FD_ROLL => at_roll v
  | FD_PITCH => at_pitch v
  | FD_YAW => at_yaw v
  end.
Coercion nth_axis : xyz >-> Funclass.

Definition upd_axis {A} (v : xyz A) (axis : flight_dynamics_index_t) (x : A)
    : xyz A :=
  match axis with
  | FD_ROLL => mkXyz x (at_pitch v) (at_yaw v)
  | FD_PITCH => mkXyz (at_roll v) x (at_yaw v)
  | FD_YAW => mkXyz (at_roll v) (at_pitch v) x
  end.

Definition axis_eqb (a b : flight_dynamics_index_t) : bool :=
  match a, b with
  | FD_ROLL, FD_ROLL | FD_PITCH, FD_PITCH | FD_YAW, FD_YAW => true
  | _, _ => false
  end.

(** Slots of the controller's gain bank.  The autotuner writes the three
    rate slots and reads the attitude ("level") slot. *)
Inductive pidIndex_e : Type := PID_ROLL | PID_PITCH | PID_YAW | PID_LEVEL.

(** [pid[axis]]: an axis indexes the bank at the slot of the same rank. *)
Definition pidOfAxis (axis : flight_dynamics_index_t) : pidIndex_e :=
  match axis with
  | FD_ROLL => PID_ROLL
  | FD_PITCH => PID_PITCH
  | FD_YAW => PID_YAW
  end.

Module Pid8.
Record t : Type := mk { P : Z; I : Z; D : Z }.
Definition set_P v (g : t) := mk v (I g) (D g).
Definition set_I v (g : t) := mk (P g) v (D g).
Definition set_D v (g : t) := mk (P g) (I g) v.
End Pid8.

(** The bank [pid[]], restricted to the slots the autotuner touches. *)
Record pidBank_t : Type := mkBank {
  pid_roll : Pid8.t;
  pid_pitch : Pid8.t;
  pid_yaw : Pid8.t;
  pid_level : Pid8.t
}.

Definition pid_at (b : pidBank_t) (i : pidIndex_e) : Pid8.t :=
  match i with
  | PID_ROLL => pid_roll b
  | PID_PITCH => pid_pitch b
  | PID_YAW => pid_yaw b
  | PID_LEVEL => pid_level b
  end.
Coercion pid_at : pidBank_t >-> Funclass.

Definition upd_pid (b : pidBank_t) (i : pidIndex_e) (g : Pid8.t) : pidBank_t :=
  match i with
  | PID_ROLL => mkBank g (pid_pitch b) (pid_yaw b) (pid_level b)
  | PID_PITCH => mkBank (pid_roll b) g (pid_yaw b) (pid_level b)
  | PID_YAW => mkBank (pid_roll b) (pid_pitch b) g (pid_level b)
  | PID_LEVEL => mkBank (pid_roll b) (pid_pitch b) (pid_yaw b) g
  end.

(** Read-only configuration the tuning law consults.  The three scale
    factors are macros of flight/pid.h, which is not among the sources, so
    they are parameters of the model. *)
Record config : Type := mkConfig {
  rates : flight_dynamics_index_t -> Z;
      (* currentControlRateProfile->rates[] *)
  max_angle_inclination : flight_dynamics_index_t -> Z;
      (* pidProfile()->max_angle_inclination[] *)
  pidSumLimit : Z;
      (* pidProfile()->pidSumLimit *)
  FP_PID_RATE_FF_MULTIPLIER : F32.float;
  FP_PID_RATE_I_MULTIPLIER : F32.float;
  FP_PID_LEVEL_P_MULTIPLIER : F32.float
}.

Definition tuneArray : Type := xyz pidAutotuneData_t.

Record world : Type := mkWorld {
  tuneCurrent : tuneArray;
  tuneSaved : tuneArray;
  lastGainsUpdateTime : Z;
  pidBank : pidBank_t;
      (* what pidBank() and pidBankMutable() point to *)
  pidGainsUpdates : nat;
      (* number of calls of schedulePidGainsUpdate() so far *)
  flightMode_AUTO_TUNE : bool;
      (* FLIGHT_MODE(AUTO_TUNE) *)
  sysTime : nat -> Z;
      (* the millisecond clock at the n-th call of millis() *)
  millisCalls : nat
}.

Definition set_tuneCurrent v (w : world) :=
  mkWorld v (tuneSaved w) (lastGainsUpdateTime w) (pidBank w)
          (pidGainsUpdates w) (flightMode_AUTO_TUNE w) (sysTime w) (millisCalls w).
Definition set_tuneSaved v (w : world) :=
  mkWorld (tuneCurrent w) v (lastGainsUpdateTime w) (pidBank w)
          (pidGainsUpdates w) (flightMode_AUTO_TUNE w) (sysTime w) (millisCalls w).
Definition set_lastGainsUpdateTime v (w : world) :=
  mkWorld (tuneCurrent w) (tuneSaved w) v (pidBank w)
          (pidGainsUpdates w) (flightMode_AUTO_TUNE w) (sysTime w) (millisCalls w).
Definition set_pidBank v (w : world) :=
  mkWorld (tuneCurrent w) (tuneSaved w) (lastGainsUpdateTime w) v
          (pidGainsUpdates w) (flightMode_AUTO_TUNE w) (sysTime w) (millisCalls w).
Definition set_pidGainsUpdates v (w : world) :=
  mkWorld (tuneCurrent w) (tuneSaved w) (lastGainsUpdateTime w) (pidBank w)
          v (flightMode_AUTO_TUNE w) (sysTime w) (millisCalls w).
Definition set_flightMode_AUTO_TUNE v (w : world) :=
  mkWorld (tuneCurrent w) (tuneSaved w) (lastGainsUpdateTime w) (pidBank w)
          (pidGainsUpdates w) v (sysTime w) (millisCalls w).
Definition set_millisCalls v (w : world) :=
  mkWorld (tuneCurrent w) (tuneSaved w) (lastGainsUpdateTime w) (pidBank w)
          (pidGainsUpdates w) (flightMode_AUTO_TUNE w) (sysTime w) v.

(* ================================================================== *)
(** ** State monad                                                     *)
(* ================================================================== *)

Definition M (A : Type) : Type := world -> A * world.

Definition ret {A} (a : A) : M A := fun w => (a, w).
Definition bind {A B} (c : M A) (k : A -> M B) : M B :=
  fun w => k (fst (c w)) (snd (c w)).
Definition gets {A} (f : world -> A) : M A := fun w => (f w, w).
Definition modify (f : world -> world) : M unit := fun w => (tt, f w).
Definition when (b : bool) (c : M unit) : M unit := if b then c else ret tt.
Definition exec {A} (c : M A) (w : world) : world := snd (c w).

Declare Scope monad_scope.
Delimit Scope monad_scope with monad.
Notation "x <- c ;; k" := (bind c (fun x => k))
  (at level 61, c at next level, right associativity) : monad_scope.
Notation "c ;; k" := (bind c (fun _ => k))
  (at level 61, right associativity) : monad_scope.
Local Open Scope monad_scope.

(** [for (int axis = 0; axis < XYZ_AXIS_COUNT; axis++) body] *)
Definition for_axes (body : flight_dynamics_index_t -> M unit) : M unit :=
  body FD_ROLL ;; body FD_PITCH ;; body FD_YAW.

(** [tuneCurrent[axis].field = ...] and [pidBankMutable()->pid[axis].field = ...] *)
Definition modify_current (axis : flight_dynamics_index_t)
    (f : pidAutotuneData_t -> pidAutotuneData_t) : M unit :=
  modify (fun w =>
    set_tuneCurrent (upd_axis (tuneCurrent w) axis (f (tuneCurrent w axis))) w).
Definition modify_pid (axis : flight_dynamics_index_t)
    (f : Pid8.t -> Pid8.t) : M unit :=
  modify (fun w =>
    set_pidBank (upd_pid (pidBank w) (pidOfAxis axis)
                         (f (pidBank w (pidOfAxis axis)))) w).

(* ================================================================== *)
(** ** Collaborators                                                   *)
(* ================================================================== *)

Definition millis : M Z :=
  fun w => (uint32 (sysTime w (millisCalls w)),
            set_millisCalls (S (millisCalls w)) w).

Definition schedulePidGainsUpdate : M unit :=
  modify (fun w => set_pidGainsUpdates (S (pidGainsUpdates w)) w).

Definition ENABLE_FLIGHT_MODE_AUTO_TUNE : M unit :=
  modify (set_flightMode_AUTO_TUNE true).
Definition DISABLE_FLIGHT_MODE_AUTO_TUNE : M unit :=
  modify (set_flightMode_AUTO_TUNE false).

(* ================================================================== *)
(** ** Session controller and commit scheduler                         *)
(* ================================================================== *)

Definition AUTOTUNE_SAVE_PERIOD : Z := 5000.

(** [data] is a pointer to one of the two static arrays: a selector. *)
Definition autotuneUpdateGains (data : world -> tuneArray) : M unit :=
  for_axes (fun axis =>
    p <- gets (fun w => gainP (data w axis)) ;;
    modify_pid axis (Pid8.set_P (uint8 (lrintf p))) ;;
    i <- gets (fun w => gainI (data w axis)) ;;
    modify_pid axis (Pid8.set_I (uint8 (lrintf i))) ;;
    d <- gets (fun w => gainD (data w axis)) ;;
    modify_pid axis (Pid8.set_D (uint8 (lrintf d)))) ;;
  schedulePidGainsUpdate.

Definition autotuneCheckUpdateGains : M unit :=
  currentTimeMs <- millis ;;
  last <- gets lastGainsUpdateTime ;;
  if uint32 (currentTimeMs - last) <? AUTOTUNE_SAVE_PERIOD then
    ret tt
  else
    modify (fun w => set_tuneSaved (tuneCurrent w) w) ;;
    autotuneUpdateGains tuneSaved ;;
    modify (set_lastGainsUpdateTime currentTimeMs).

Definition autotuneStart : M unit :=
  for_axes (fun axis =>
    p <- gets (fun w => Pid8.P (pidBank w (pidOfAxis axis))) ;;
    modify_current axis (set_gainP (F32.of_Z p)) ;;
    i <- gets (fun w => Pid8.I (pidBank w (pidOfAxis axis))) ;;
    modify_current axis (set_gainI (F32.of_Z i)) ;;
    d <- gets (fun w => Pid8.D (pidBank w (pidOfAxis axis))) ;;
    modify_current axis (set_gainD (F32.of_Z d)) ;;
    modify_current axis (set_pidSaturated false) ;;
    t <- millis ;;
    modify_current axis (set_stateEnterTime t) ;;
    modify_current axis (set_state DEMAND_TOO_LOW)) ;;
  modify (fun w => set_tuneSaved (tuneCurrent w) w) ;;
  t <- millis ;;
  modify (set_lastGainsUpdateTime t).

(** The two ambient inputs [IS_RC_MODE_ACTIVE(BOXAUTOTUNE)] and
    [ARMING_FLAG(ARMED)] are arguments. *)
Definition autotuneUpdateState (rcModeAutotune armed : bool) : M unit :=
  if rcModeAutotune && armed then
    active <- gets flightMode_AUTO_TUNE ;;
    if negb active then
      autotuneStart ;;
      ENABLE_FLIGHT_MODE_AUTO_TUNE
    else
      autotuneCheckUpdateGains
  else
    active <- gets flightMode_AUTO_TUNE ;;
    when active (autotuneUpdateGains tuneSaved) ;;
    DISABLE_FLIGHT_MODE_AUTO_TUNE.

(* ================================================================== *)
(** ** Per-axis tuning law (fixed wing)                                *)
(* ================================================================== *)

Definition AUTOTUNE_FIXED_WING_OVERSHOOT_TIME : Z := 100.
Definition AUTOTUNE_FIXED_WING_UNDERSHOOT_TIME : Z := 200.
Definition AUTOTUNE_FIXED_WING_DECREASE_STEP : Z := 8.
Definition AUTOTUNE_FIXED_WING_INCREASE_STEP : Z := 5.
Definition AUTOTUNE_FIXED_WING_MIN_FF : Z := 10.
Definition AUTOTUNE_FIXED_WING_MAX_FF : Z := 200.

Definition autotuneFixedWingUpdate (cfg : config)
    (axis : flight_dynamics_index_t)
    (desiredRateDps reachedRateDps pidOutput : F32.float) : M unit :=
  currentTimeMs <- millis ;;
  let absDesiredRateDps := fabsf desiredRateDps in
  let maxDesiredRate := (F32.of_Z (rates cfg axis) * f_10)%f32 in
  maxDesiredRate <-
    (if axis_eqb axis FD_PITCH || axis_eqb axis FD_ROLL then
       levelP <- gets (fun w => Pid8.P (pidBank w PID_LEVEL)) ;;
       let maxDesiredRateInAngleMode :=
         (DECIDEGREES_TO_DEGREES
            (F32.of_Z (max_angle_inclination cfg axis) * f_1)
          * F32.of_Z levelP / FP_PID_LEVEL_P_MULTIPLIER cfg)%f32 in
       ret (MIN maxDesiredRate maxDesiredRateInAngleMode)
     else ret maxDesiredRate) ;;
  when (fabsf pidOutput >=? F32.of_Z (pidSumLimit cfg))%f32
    (modify_current axis (set_pidSaturated true)) ;;
  let newState :=
    if (absDesiredRateDps <? f_0_75 * maxDesiredRate)%f32 then DEMAND_TOO_LOW
    else if (fabsf reachedRateDps >? absDesiredRateDps)%f32 then DEMAND_OVERSHOOT
    else DEMAND_UNDERSHOOT in
  old <- gets (fun w => tuneCurrent w axis) ;;
  if negb (pidAutotuneState_eqb newState (state old)) then
    let stateTimeMs := int32 (currentTimeMs - stateEnterTime old) in
    gainsUpdated <-
      (match state old with
       | DEMAND_TOO_LOW => ret false
       | DEMAND_OVERSHOOT =>
           if stateTimeMs >=? AUTOTUNE_FIXED_WING_OVERSHOOT_TIME then
             modify_current axis (fun d => set_gainD
               (gainD d * F32.of_Z (100 - AUTOTUNE_FIXED_WING_DECREASE_STEP)
                / f_100)%f32 d) ;;
             g <- gets (fun w => gainD (tuneCurrent w axis)) ;;
             when (g <? F32.of_Z AUTOTUNE_FIXED_WING_MIN_FF)%f32
               (modify_current axis
                  (set_gainD (F32.of_Z AUTOTUNE_FIXED_WING_MIN_FF))) ;;
             ret true
           else ret false
       | DEMAND_UNDERSHOOT =>
           if (stateTimeMs >=? AUTOTUNE_FIXED_WING_UNDERSHOOT_TIME)
              && negb (pidSaturated old) then
             modify_current axis (fun d => set_gainD
               (gainD d * F32.of_Z (100 + AUTOTUNE_FIXED_WING_INCREASE_STEP)
                / f_100)%f32 d) ;;
             g <- gets (fun w => gainD (tuneCurrent w axis)) ;;
             when (g >? F32.of_Z AUTOTUNE_FIXED_WING_MAX_FF)%f32
               (modify_current axis
                  (set_gainD (F32.of_Z AUTOTUNE_FIXED_WING_MAX_FF))) ;;
             ret true
           else ret false
       end) ;;
    when gainsUpdated
      (modify_current axis (fun d => set_gainP (gainD d * f_0_1)%f32 d) ;;
       modify_current axis (fun d => set_gainI
         (gainD d / FP_PID_RATE_FF_MULTIPLIER cfg * f_1
          * FP_PID_RATE_I_MULTIPLIER cfg)%f32 d) ;;
       modify_current axis (fun d => set_gainI
         (constrainf (gainI d) f_1 f_50) d) ;;
       autotuneUpdateGains tuneCurrent) ;;
    modify_current axis (set_state newState) ;;
    modify_current axis (set_stateEnterTime currentTimeMs) ;;
    modify_current axis (set_pidSaturated false)
  else ret tt.

(* ================================================================== *)
(** ** Named quantities of one per-axis update                         *)
(* ================================================================== *)

(** The locals of [autotuneFixedWingUpdate], as functions of the world
    the call starts in; the theorems speak about the call through them. *)

(** What the next [millis()] returns. *)
Definition currentTime (w : world) : Z := uint32 (sysTime w (millisCalls w)).

Definition configuredMaxRate (cfg : config)
    (axis : flight_dynamics_index_t) : F32.float :=
  (F32.of_Z (rates cfg axis) * f_10)%f32.

Definition maxDesiredRateInAngleMode (cfg : config) (w : world)
    (axis : flight_dynamics_index_t) : F32.float :=
  (DECIDEGREES_TO_DEGREES (F32.of_Z (max_angle_inclination cfg axis) * f_1)
   * F32.of_Z (Pid8.P (pidBank w PID_LEVEL))
   / FP_PID_LEVEL_P_MULTIPLIER cfg)%f32.

Definition maxDesiredRate (cfg : config) (w : world)
    (axis : flight_dynamics_index_t) : F32.float :=
  match axis with
  | FD_YAW => configuredMaxRate cfg axis
  | _ => MIN (configuredMaxRate cfg axis) (maxDesiredRateInAngleMode cfg w axis)
  end.

Definition newState (cfg : config) (w : world)
    (axis : flight_dynamics_index_t)
    (desiredRateDps reachedRateDps : F32.float) : pidAutotuneState_e :=
  if (fabsf desiredRateDps <? f_0_75 * maxDesiredRate cfg w axis)%f32
  then DEMAND_TOO_LOW
  else if (fabsf reachedRateDps >? fabsf desiredRateDps)%f32
  then DEMAND_OVERSHOOT
  else DEMAND_UNDERSHOOT.

(** The dwell in the stored regime, as the source measures it. *)
Definition stateTimeMs (w : world) (axis : flight_dynamics_index_t) : Z :=
  int32 (currentTime w - stateEnterTime (tuneCurrent w axis)).

(** The saturation flag as the regime switch reads it: the stored flag,
    or output at the limit on this very call. *)
Definition saturatedNow (cfg : config) (w : world)
    (axis : flight_dynamics_index_t) (pidOutput : F32.float) : bool :=
  (fabsf pidOutput >=? F32.of_Z (pidSumLimit cfg))%f32
  || pidSaturated (tuneCurrent w axis).

Definition fwDecrease (g : F32.float) : F32.float :=
  let g' := (g * F32.of_Z (100 - AUTOTUNE_FIXED_WING_DECREASE_STEP) / f_100)%f32 in
  if (g' <? F32.of_Z AUTOTUNE_FIXED_WING_MIN_FF)%f32
  then F32.of_Z AUTOTUNE_FIXED_WING_MIN_FF else g'.

Definition fwIncrease (g : F32.float) : F32.float :=
  let g' := (g * F32.of_Z (100 + AUTOTUNE_FIXED_WING_INCREASE_STEP) / f_100)%f32 in
  if (g' >? F32.of_Z AUTOTUNE_FIXED_WING_MAX_FF)%f32
  then F32.of_Z AUTOTUNE_FIXED_WING_MAX_FF else g'.

(** The step the switch applies to [gainD] when leaving regime [st]. *)
Definition steppedGainD (st : pidAutotuneState_e) (g : F32.float) : F32.float :=
  match st with
  | DEMAND_TOO_LOW => g
  | DEMAND_OVERSHOOT => fwDecrease g
  | DEMAND_UNDERSHOOT => fwIncrease g
  end.

Definition regimeChanged (cfg : config) (w : world)
    (axis : flight_dynamics_index_t)
    (desiredRateDps reachedRateDps : F32.float) : bool :=
  negb (pidAutotuneState_eqb
          (newState cfg w axis desiredRateDps reachedRateDps)
          (state (tuneCurrent w axis))).

(** The value of the local flag [gainsUpdated] when the call reaches
    [if (gainsUpdated)], and [false] when the regime did not change. *)
Definition gainsUpdated (cfg : config) (w : world)
    (axis : flight_dynamics_index_t)
    (desiredRateDps reachedRateDps pidOutput : F32.float) : bool :=
  regimeChanged cfg w axis desiredRateDps reachedRateDps
  && match state (tuneCurrent w axis) with
     | DEMAND_TOO_LOW => false
     | DEMAND_OVERSHOOT =>
         stateTimeMs w axis >=? AUTOTUNE_FIXED_WING_OVERSHOOT_TIME
     | DEMAND_UNDERSHOOT =>
         (stateTimeMs w axis >=? AUTOTUNE_FIXED_WING_UNDERSHOOT_TIME)
         && negb (saturatedNow cfg w axis pidOutput)
     end.

Definition derivedGainP (g : F32.float) : F32.float := (g * f_0_1)%f32.

Definition derivedGainI (cfg : config) (g : F32.float) : F32.float :=
  constrainf (g / FP_PID_RATE_FF_MULTIPLIER cfg * f_1
              * FP_PID_RATE_I_MULTIPLIER cfg)%f32 f_1 f_50.

(** What [autotuneUpdateGains] stores in the bank for one axis. *)
Definition appliedGains (d : pidAutotuneData_t) : Pid8.t :=
  Pid8.mk (uint8 (lrintf (gainP d)))
          (uint8 (lrintf (gainI d)))
          (uint8 (lrintf (gainD d))).

(** The float a bank field becomes when a session starts. *)
Definition seededGains (g : Pid8.t) (d : pidAutotuneData_t) : Prop :=
  gainP d = F32.of_Z (Pid8.P g) /\
  gainI d = F32.of_Z (Pid8.I g) /\
  gainD d = F32.of_Z (Pid8.D g).

Definition sameGains (d d' : pidAutotuneData_t) : Prop :=
  gainP d' = gainP d /\ gainI d' = gainI d /\ gainD d' = gainD d.

(** Rank of an axis in the loop of [autotuneStart]. *)
Definition axisRank (axis : flight_dynamics_index_t) : nat :=
  match axis with FD_ROLL => 0 | FD_PITCH => 1 | FD_YAW => 2 end.

(** The [i]-th next reading of the clock; [currentTime] is the first. *)
Definition clockAt (w : world) (i : nat) : Z :=
  uint32 (sysTime w (i + millisCalls w)).

(** A scale factor that is an ordinary nonzero number. *)
Definition finite_nonzero (x : F32.float) : bool :=
  match x with S754_finite _ _ _ => true | _ => false end.

(** The ranges the tuning law clamps to, read on a bank entry. *)
Definition gainsInRange (g : Pid8.t) : Prop :=
  AUTOTUNE_FIXED_WING_MIN_FF <= Pid8.D g <= AUTOTUNE_FIXED_WING_MAX_FF /\
  1 <= Pid8.I g <= 50.

(** A bank entry whose fields fit the 8-bit gain fields. *)
Definition fitsBank (g : Pid8.t) : Prop :=
  0 <= Pid8.P g <= 255 /\ 0 <= Pid8.I g <= 255 /\ 0 <= Pid8.D g <= 255.

(* ================================================================== *)
(** ** Rounding and ranges of the working gains                        *)
(* ================================================================== *)

(** What [binary_round_aux] returns for a rounded mantissa [r] that sits
    at its canonical exponent [e]. *)
Definition rounded (s : bool) (r e : Z) : F32.float :=
  if r =? 0 then S754_zero s
  else if e <=? 104 then S754_finite s (Z.to_pos r) e else S754_infinity s.

(** The second half of [binary_round_aux]: the rounded mantissa is
    normalised once more (a carry may have added a digit). *)
Definition renormalized (s : bool) (r e : Z) : F32.float :=
  let '(mrs, e') := shr_fexp F32.prec F32.emax r e loc_Exact in
  match shr_m mrs with
  | 0 => S754_zero s
  | Zpos m => if e' <=? F32.emax - F32.prec then S754_finite s m e'
              else S754_infinity s
  | Zneg _ => S754_nan
  end.

(** [x] is a valid positive binary32 number whose value lies between the
    integers [lo] and [hi]. *)
Definition betweenb (lo hi : Z) (x : F32.float) : bool :=
  match x with
  | S754_finite false m e =>
      valid_binary F32.prec F32.emax x && (e <=? 0)
      && (lo * 2 ^ (- e) <=? Zpos m) && (Zpos m <=? hi * 2 ^ (- e))
  | _ => false
  end.

(** The working gains of an axis lie in the ranges of the tuning law. *)
Definition workingInRange (t : pidAutotuneData_t) : Prop :=
  betweenb AUTOTUNE_FIXED_WING_MIN_FF AUTOTUNE_FIXED_WING_MAX_FF (gainD t)
    = true /\
  betweenb 1 50 (gainI t) = true.

(** Both arrays and every rate slot of the bank are in range. *)
Definition sessionInRange (w : world) : Prop :=
  (forall axis, workingInRange (tuneCurrent w axis) /\
                workingInRange (tuneSaved w axis)) /\
  (forall axis, gainsInRange (pidBank w (pidOfAxis axis))).

(* ================================================================== *)
(** ** Net effect of each entry point                                  *)
(* ================================================================== *)

(** The world each function leaves behind, written out; the run lemmas
    below prove that the monadic code computes exactly these. *)

Definition gainsApplied (data : tuneArray) (w : world) : world :=
  set_pidGainsUpdates (S (pidGainsUpdates w))
    (set_pidBank (mkBank (appliedGains (data FD_ROLL))
                         (appliedGains (data FD_PITCH))
                         (appliedGains (data FD_YAW))
                         (pidBank w PID_LEVEL)) w).

Definition checkEffect (w : world) : world :=
  let w1 := set_millisCalls (S (millisCalls w)) w in
  if uint32 (currentTime w - lastGainsUpdateTime w) <? AUTOTUNE_SAVE_PERIOD
  then w1
  else set_lastGainsUpdateTime (currentTime w)
         (gainsApplied (tuneCurrent w) (set_tuneSaved (tuneCurrent w) w1)).

Definition seededAxis (g : Pid8.t) (t : Z) : pidAutotuneData_t :=
  mkTune DEMAND_TOO_LOW t false
         (F32.of_Z (Pid8.P g)) (F32.of_Z (Pid8.I g)) (F32.of_Z (Pid8.D g)).

Definition startEffect (w : world) : world :=
  let cur := mkXyz (seededAxis (pidBank w PID_ROLL) (clockAt w 0))
                   (seededAxis (pidBank w PID_PITCH) (clockAt w 1))
                   (seededAxis (pidBank w PID_YAW) (clockAt w 2)) in
  set_lastGainsUpdateTime (clockAt w 3)
    (set_tuneSaved cur
       (set_tuneCurrent cur (set_millisCalls (4 + millisCalls w) w))).

Definition updateStateEffect (rcModeAutotune armed : bool) (w : world)
    : world :=
  if rcModeAutotune && armed then
    if flightMode_AUTO_TUNE w then checkEffect w
    else set_flightMode_AUTO_TUNE true (startEffect w)
  else
    set_flightMode_AUTO_TUNE false
      (if flightMode_AUTO_TUNE w then gainsApplied (tuneSaved w) w else w).

Definition fwEffect (cfg : config) (axis : flight_dynamics_index_t)
    (desiredRateDps reachedRateDps pidOutput : F32.float) (w : world)
    : world :=
  let w1 := set_millisCalls (S (millisCalls w)) w in
  let old := tuneCurrent w axis in
  if regimeChanged cfg w axis desiredRateDps reachedRateDps then
    let upd := gainsUpdated cfg w axis desiredRateDps reachedRateDps
                            pidOutput in
    let g := if upd then steppedGainD (state old) (gainD old)
             else gainD old in
    let cur' :=
      upd_axis (tuneCurrent w) axis
        (mkTune (newState cfg w axis desiredRateDps reachedRateDps)
                (currentTime w) false
                (if upd then derivedGainP g else gainP old)
                (if upd then derivedGainI cfg g else gainI old) g) in
    if upd then set_tuneCurrent cur' (gainsApplied cur' w1)
    else set_tuneCurrent cur' w1
  else
    set_tuneCurrent
      (upd_axis (tuneCurrent w) axis
         (set_pidSaturated (saturatedNow cfg w axis pidOutput) old)) w1.

(* ================================================================== *)
(** ** Sequences of per-axis updates                                   *)
(* ================================================================== *)

Record axisCall : Type := mkCall {
  callAxis : flight_dynamics_index_t;
  callDesired : F32.float;
  callReached : F32.float;
  callOutput : F32.float
}.

Definition runCall (cfg : config) (c : axisCall) : M unit :=
  autotuneFixedWingUpdate cfg (callAxis c) (callDesired c) (callReached c)
                          (callOutput c).

Fixpoint runCalls (cfg : config) (cs : list axisCall) : M unit :=
  match cs with
  | [] => ret tt
  | c :: cs' => runCall cfg c ;; runCalls cfg cs'
  end.

(** A call is damped when it changes no regime, or leaves a regime whose
    dwell is still under that regime's floor. *)
Definition dampedCall (cfg : config) (c : axisCall) (w : world) : bool :=
  if regimeChanged cfg w (callAxis c) (callDesired c) (callReached c) then
    match state (tuneCurrent w (callAxis c)) with
    | DEMAND_TOO_LOW => true
    | DEMAND_OVERSHOOT =>
        stateTimeMs w (callAxis c) <? AUTOTUNE_FIXED_WING_OVERSHOOT_TIME
    | DEMAND_UNDERSHOOT =>
        stateTimeMs w (callAxis c) <? AUTOTUNE_FIXED_WING_UNDERSHOOT_TIME
    end
  else true.

Fixpoint damped (cfg : config) (cs : list axisCall) (w : world) : bool :=
  match cs with
  | [] => true
  | c :: cs' => dampedCall cfg c w && damped cfg cs' (exec (runCall cfg c) w)
  end.

(* ================================================================== *)
(** ** Whole flights                                                   *)
(* ================================================================== *)

(** One call of either entry point, and a flight as a list of them. *)
Inductive tick : Type :=
  | SessionTick (rcModeAutotune armed : bool)
  | AxisTick (c : axisCall).

Definition runTick (cfg : config) (t : tick) : M unit :=
  match t with
  | SessionTick rcModeAutotune armed => autotuneUpdateState rcModeAutotune armed
  | AxisTick c => runCall cfg c
  end.

Fixpoint runTicks (cfg : config) (ts : list tick) : M unit :=
  match ts with
  | [] => ret tt
  | t :: ts' => runTick cfg t ;; runTicks cfg ts'
  end.

(** All three gains of an axis are numbers. *)
Definition gainsAreNumbers (t : pidAutotuneData_t) : Prop :=
  F32.is_nan (gainP t) = false /\
  F32.is_nan (gainI t) = false /\
  F32.is_nan (gainD t) = false.

(** Every rate slot of the bank fits its 8-bit fields and, while a
    session is active, holds the rounding of the working gains. *)
Definition bankMirrorsCurrent (w : world) : Prop :=
  (forall axis, fitsBank (pidBank w (pidOfAxis axis))) /\
  (flightMode_AUTO_TUNE w = true ->
   forall axis, pidBank w (pidOfAxis axis) = appliedGains (tuneCurrent w axis)).

(* ================================================================== *)
(** ** Concrete instances                                              *)
(* ================================================================== *)

(** The scale factors as the firmware's flight/pid.h has them (31, 4 and
    6.56), a yaw rate of 150 deg/s, 30 deg of inclination and an output
    limit of 500. *)
Definition cfgSample : config :=
  mkConfig (fun _ => 15) (fun _ => 300) 500
           (F32.of_Z 31) (F32.of_Z 4) (F32.lit 13757317 (-21)).

Definition tuneSample (st : pidAutotuneState_e) (entered : Z) (sat : bool)
    (p i d : Z) : pidAutotuneData_t :=
  mkTune st entered sat (F32.of_Z p) (F32.of_Z i) (F32.of_Z d).

(** A world whose three axes all hold [t], with bank [g] in every slot,
    tuning active, last commit at 0 and a clock frozen at [now]. *)
Definition worldSample (t : pidAutotuneData_t) (g : Pid8.t) (active : bool)
    (now : Z) : world :=
  mkWorld (mkXyz t t t) (mkXyz t t t) 0 (mkBank g g g g) 0 active
          (fun _ => now) 0.

(** The same with a clock that starts at [start] and advances by [step]
    milliseconds between two readings. *)
Definition worldTicking (t : pidAutotuneData_t) (g : Pid8.t) (active : bool)
    (start step : Z) : world :=
  mkWorld (mkXyz t t t) (mkXyz t t t) 0 (mkBank g g g g) 0 active
          (fun n => start + step * Z.of_nat n) 0.

Definition callSample (axis : flight_dynamics_index_t) (desired reached
    output : Z) : axisCall :=
  mkCall axis (F32.of_Z desired) (F32.of_Z reached) (F32.of_Z output).

(** Yaw has dwelt 150 ms in overshoot with [gainD] 50. *)
Definition worldOvershoot : world :=
  worldSample (tuneSample DEMAND_OVERSHOOT 1000 false 5 7 50)
              (Pid8.mk 5 7 50) true 1150.

(** Yaw has dwelt 250 ms in undershoot, unsaturated, with [gainD] 190. *)
Definition worldUndershoot : world :=
  worldSample (tuneSample DEMAND_UNDERSHOOT 1000 false 5 7 190)
              (Pid8.mk 5 7 190) true 1250.

(** No session is active; the bank holds P 20, I 0 and feed-forward 5. *)
Definition worldIdle : world :=
  worldSample (tuneSample DEMAND_TOO_LOW 0 false 0 0 0)
              (Pid8.mk 20 0 5) false 1000.

(** A session whose clock advances 30 ms per reading, and a demand on
    yaw and roll that flips between overshoot and undershoot each time. *)
Definition worldOscillating : world :=
  worldTicking (tuneSample DEMAND_TOO_LOW 1000 false 5 7 50)
               (Pid8.mk 5 7 50) true 1000 30.

Definition callsOscillating : list axisCall :=
  [callSample FD_YAW 120 130 10; callSample FD_ROLL 120 130 10;
   callSample FD_YAW 120 100 10; callSample FD_ROLL 120 100 600;
   callSample FD_YAW 120 130 10; callSample FD_ROLL 120 130 10].

(** The bank holds feed-forward 10, the floor of the tuning law, and a
    clock that advances 150 ms per reading. *)
Definition worldAtFloor : world :=
  worldTicking (tuneSample DEMAND_TOO_LOW 0 false 0 0 0)
               (Pid8.mk 1 1 10) false 1000 150.

(** A session starts; yaw overshoots, undershoots and overshoots again. *)
Definition flightToFloor : list tick :=
  [SessionTick true true;
   AxisTick (callSample FD_YAW 120 130 10);
   AxisTick (callSample FD_YAW 120 100 10);
   AxisTick (callSample FD_YAW 120 130 10)].

Definition worldOnFloor : world :=
  exec (runTicks cfgSample flightToFloor) worldAtFloor.


(* ================================================================== *)
(** ** Symbolic execution of the monadic code                          *)
(* ================================================================== *)

Lemma bind_run {A B} (c : M A) (k : A -> M B) w a w' r :
  c w = (a, w') -> k a w' = r -> bind c k w = r.
Proof. unfold bind. intros -> <-. reflexivity. Qed.

Lemma if_true_run {A} (b : bool) (x y : M A) w r :
  b = true -> x w = r -> (if b then x else y) w = r.
Proof. intros -> H. exact H. Qed.

Lemma if_false_run {A} (b : bool) (x y : M A) w r :
  b = false -> y w = r -> (if b then x else y) w = r.
Proof. intros -> H. exact H. Qed.

Lemma exec_run {A} (c : M A) w a w' : c w = (a, w') -> exec c w = w'.
Proof. unfold exec. intros ->. reflexivity. Qed.

Lemma exec_bind {A B} (c : M A) (k : A -> M B) w :
  exec (bind c k) w = exec (k (fst (c w))) (snd (c w)).
Proof. reflexivity. Qed.

Declare Reduction pure_data := cbv beta iota zeta delta
  [fst snd tuneCurrent tuneSaved lastGainsUpdateTime pidBank pidGainsUpdates
   flightMode_AUTO_TUNE sysTime millisCalls
   axis_eqb pidOfAxis negb andb orb upd_axis upd_pid nth_axis pid_at
   at_roll at_pitch at_yaw pid_roll pid_pitch pid_yaw pid_level
   pidAutotuneState_eqb
   state stateEnterTime pidSaturated gainP gainI gainD
   set_state set_stateEnterTime set_pidSaturated set_gainP set_gainI set_gainD
   Pid8.P Pid8.I Pid8.D Pid8.set_P Pid8.set_I Pid8.set_D Nat.add].

(** Projections, setters and the small boolean functions. *)
Ltac norm_pure := cbv beta iota zeta delta
  [fst snd tuneCurrent tuneSaved lastGainsUpdateTime pidBank pidGainsUpdates
   flightMode_AUTO_TUNE sysTime millisCalls
   axis_eqb pidOfAxis negb andb orb upd_axis upd_pid nth_axis pid_at
   at_roll at_pitch at_yaw pid_roll pid_pitch pid_yaw pid_level
   pidAutotuneState_eqb
   state stateEnterTime pidSaturated gainP gainI gainD
   set_state set_stateEnterTime set_pidSaturated set_gainP set_gainI set_gainD
   Pid8.P Pid8.I Pid8.D Pid8.set_P Pid8.set_I Pid8.set_D Nat.add].

(** The same, with the primitive statements of the monad. *)
Ltac norm_data := cbv beta iota zeta delta
  [ret gets modify modify_pid modify_current millis schedulePidGainsUpdate
   ENABLE_FLIGHT_MODE_AUTO_TUNE DISABLE_FLIGHT_MODE_AUTO_TUNE
   set_tuneCurrent set_tuneSaved set_lastGainsUpdateTime set_pidBank
   set_pidGainsUpdates set_flightMode_AUTO_TUNE set_millisCalls
   fst snd tuneCurrent tuneSaved lastGainsUpdateTime pidBank pidGainsUpdates
   flightMode_AUTO_TUNE sysTime millisCalls
   axis_eqb pidOfAxis negb andb orb upd_axis upd_pid nth_axis pid_at
   at_roll at_pitch at_yaw pid_roll pid_pitch pid_yaw pid_level
   pidAutotuneState_eqb
   state stateEnterTime pidSaturated gainP gainI gainD
   set_state set_stateEnterTime set_pidSaturated set_gainP set_gainI set_gainD
   Pid8.P Pid8.I Pid8.D Pid8.set_P Pid8.set_I Pid8.set_D Nat.add].

Ltac not_literal c :=
  lazymatch c with true => fail | false => fail | _ => idtac end.

(** Rewrite with the conditions already decided in the context. *)
Ltac use_known := repeat match goal with
   | H : ?c = true |- context [?c] => not_literal c; rewrite H
   | H : ?c = false |- context [?c] => not_literal c; rewrite H
   end.

(** Case split on an innermost undecided condition of the goal. *)
Ltac split_cond := match goal with
   | |- context [if ?c then _ else _] =>
       lazymatch c with
       | context [if _ then _ else _] => fail
       | _ => destruct c eqn:?
       end
   end.

Ltac named := unfold updateStateEffect, fwEffect, checkEffect, startEffect,
   gainsApplied, seededAxis, clockAt,
   gainsUpdated, regimeChanged, newState, maxDesiredRate,
   configuredMaxRate, maxDesiredRateInAngleMode, stateTimeMs, saturatedNow,
   steppedGainD, fwDecrease, fwIncrease, derivedGainP, derivedGainI,
   appliedGains, currentTime.

Ltac decide_cond := repeat progress (norm_pure; use_known); reflexivity.

(** Run [c w = r] statement by statement: every primitive is evaluated
    on an explicit world, every branch is taken by a known condition. *)
Ltac mrun :=
  lazymatch goal with
  | |- bind _ _ _ = _ => eapply bind_run; [ mrun | cbv beta zeta; mrun ]
  | |- when ?b ?c ?w = ?r => change ((if b then c else ret tt) w = r); mrun
  | |- for_axes _ _ = _ => unfold for_axes; cbv beta; mrun
  | |- autotuneUpdateGains _ _ = _ => unfold autotuneUpdateGains; mrun
  | |- autotuneStart _ = _ => unfold autotuneStart; mrun
  | |- autotuneCheckUpdateGains _ = _ => unfold autotuneCheckUpdateGains; mrun
  | |- (if ?b then _ else _) _ = _ =>
      first [ apply if_true_run; [ decide_cond | mrun ]
            | apply if_false_run; [ decide_cond | mrun ] ]
  | |- (match ?s with DEMAND_TOO_LOW => _ | _ => _ end) _ = _ =>
      let s' := eval pure_data in s in
      change s with s'; cbv beta iota; mrun
  | |- _ =>
      norm_data;
      first [ reflexivity
            | use_known; norm_data; reflexivity
            | use_known; norm_data; use_known; norm_data; reflexivity ]
  end.

Ltac destruct_world w :=
  let c0 := fresh "c0" in let c1 := fresh "c1" in let c2 := fresh "c2" in
  let s0 := fresh "s0" in let s1 := fresh "s1" in let s2 := fresh "s2" in
  let last := fresh "last" in
  let b0 := fresh "b0" in let b1 := fresh "b1" in let b2 := fresh "b2" in
  let bl := fresh "bl" in let n := fresh "n" in let fl := fresh "fl" in
  let clk := fresh "clk" in let k := fresh "k" in
  destruct w as [[c0 c1 c2] [s0 s1 s2] last [b0 b1 b2 bl] n fl clk k].

(** Hide the program, decide every condition its net effect mentions,
    then run it. *)
Ltac run_against_effect :=
  let lhs := fresh "lhs" in
  let Elhs := fresh "Elhs" in
  match goal with |- ?c ?w = _ => remember (c w) as lhs eqn:Elhs end;
  named; norm_data; repeat (split_cond; norm_data);
  subst lhs; try discriminate; mrun.

Lemma autotuneUpdateGains_current_run w :
  autotuneUpdateGains tuneCurrent w = (tt, gainsApplied (tuneCurrent w) w).
Proof. destruct_world w. run_against_effect. Qed.

Lemma autotuneUpdateGains_saved_run w :
  autotuneUpdateGains tuneSaved w = (tt, gainsApplied (tuneSaved w) w).
Proof. destruct_world w. run_against_effect. Qed.

Lemma autotuneCheckUpdateGains_run w :
  autotuneCheckUpdateGains w = (tt, checkEffect w).
Proof. destruct_world w. run_against_effect. Qed.

Lemma autotuneStart_run w : autotuneStart w = (tt, startEffect w).
Proof. destruct_world w. run_against_effect. Qed.

Lemma autotuneUpdateState_run rcModeAutotune armed w :
  autotuneUpdateState rcModeAutotune armed w =
  (tt, updateStateEffect rcModeAutotune armed w).
Proof.
  destruct_world w.
  destruct rcModeAutotune, armed;
    match goal with fl : bool |- _ => destruct fl end;
    unfold autotuneUpdateState; run_against_effect.
Qed.

Lemma autotuneFixedWingUpdate_run cfg axis d r o w :
  autotuneFixedWingUpdate cfg axis d r o w = (tt, fwEffect cfg axis d r o w).
Proof.
  destruct w as [[c0 c1 c2] sav last [b0 b1 b2 bl] n fl clk k];
  destruct axis;
  [ destruct c0 as [st t sat gp gi gd]
  | destruct c1 as [st t sat gp gi gd]
  | destruct c2 as [st t sat gp gi gd] ];
  destruct (fabsf o >=? F32.of_Z (pidSumLimit cfg))%f32 eqn:Hsat;
  destruct st;
  unfold autotuneFixedWingUpdate; run_against_effect.
Qed.

Lemma exec_autotuneFixedWingUpdate cfg axis d r o w :
  exec (autotuneFixedWingUpdate cfg axis d r o) w = fwEffect cfg axis d r o w.
Proof. apply (exec_run _ _ tt), autotuneFixedWingUpdate_run. Qed.

Lemma exec_autotuneUpdateState rcModeAutotune armed w :
  exec (autotuneUpdateState rcModeAutotune armed) w =
  updateStateEffect rcModeAutotune armed w.
Proof. apply (exec_run _ _ tt), autotuneUpdateState_run. Qed.

Lemma exec_autotuneCheckUpdateGains w :
  exec autotuneCheckUpdateGains w = checkEffect w.
Proof. apply (exec_run _ _ tt), autotuneCheckUpdateGains_run. Qed.

Lemma exec_autotuneStart w : exec autotuneStart w = startEffect w.
Proof. apply (exec_run _ _ tt), autotuneStart_run. Qed.

(* ================================================================== *)
(** ** Facts about binary32 and the integer conversions                *)
(* ================================================================== *)

Lemma round_half_even_error (n d : Z) :
  0 < d -> 2 * Z.abs (n - round_half_even n d * d) <= d.
Proof.
  intros Hd. unfold round_half_even.
  pose proof (Z.div_mod n d ltac:(lia)) as Hdm.
  pose proof (Z.mod_pos_bound n d Hd) as Hb.
  destruct (2 * (n mod d) ?= d) eqn:Hc;
    [ apply Z.compare_eq in Hc
    | rewrite Z.compare_lt_iff in Hc
    | rewrite Z.compare_gt_iff in Hc ];
    try destruct (Z.even (n / d)); nia.
Qed.

(** [lrintf] is within one half of its argument: with [k] binary digits
    after the point, [| x * 2^k - lrintf x * 2^k | <= 2^k / 2]. *)
Lemma lrintf_error s m e :
  let x := S754_finite s m e in
  let k := Z.max 0 (- e) in
  2 * Z.abs (F32.scaled k x - lrintf x * 2 ^ k) <= 2 ^ k.
Proof.
  cbv zeta. destruct e as [|p|p].
  - unfold F32.scaled, lrintf. change (Z.max 0 (- 0)) with 0.
    rewrite Z.add_0_r, Z.pow_0_r. destruct s; lia.
  - replace (Z.max 0 (- Z.pos p)) with 0 by lia.
    unfold F32.scaled, lrintf. rewrite Z.add_0_r, Z.pow_0_r.
    destruct s; lia.
  - replace (Z.max 0 (- Z.neg p)) with (Z.pos p) by lia.
    unfold F32.scaled, lrintf.
    replace (Z.neg p + Z.pos p) with 0 by lia. rewrite Z.pow_0_r.
    pose proof (round_half_even_error (Z.pos m) (2 ^ Z.pos p)
                  ltac:(apply Z.pow_pos_nonneg; lia)).
    destruct s; lia.
Qed.

Lemma uint8_values_complete n :
  0 <= n <= 255 -> In n (map Z.of_nat (seq 0 256)).
Proof.
  intros H. apply in_map_iff. exists (Z.to_nat n). split; [lia|].
  apply in_seq. lia.
Qed.

(** Every 8-bit gain survives the trip through [float] and back. *)
Lemma lrintf_of_Z_uint8 n : 0 <= n <= 255 -> lrintf (F32.of_Z n) = n.
Proof.
  intros H.
  assert (Hall : forallb (fun z => lrintf (F32.of_Z z) =? z)
                         (map Z.of_nat (seq 0 256)) = true)
    by (vm_compute; reflexivity).
  rewrite forallb_forall in Hall.
  apply Z.eqb_eq, Hall, uint8_values_complete, H.
Qed.

Lemma uint8_small n : 0 <= n <= 255 -> uint8 n = n.
Proof. intros H. unfold uint8. apply Z.mod_small. lia. Qed.

Lemma uint8_range n : 0 <= uint8 n <= 255.
Proof.
  unfold uint8. pose proof (Z.mod_pos_bound n (2 ^ 8) ltac:(lia)). lia.
Qed.

Lemma SFcompare_antisym x y c :
  SFcompare x y = Some c -> SFcompare y x = Some (CompOpp c).
Proof.
  destruct x as [sx|sx| |sx mx ex], y as [sy|sy| |sy my ey]; cbn;
    intros H; try discriminate; injection H as <-;
    repeat match goal with b : bool |- _ => destruct b end; try reflexivity;
    f_equal; rewrite (Z.compare_antisym ex ey);
    change (PosDef.Pos.compare_cont Eq my mx) with (Pos.compare my mx);
    change (PosDef.Pos.compare_cont Eq mx my) with (Pos.compare mx my);
    rewrite (Pos.compare_antisym mx my);
    destruct (ex ?= ey); cbn; try reflexivity;
    destruct (mx ?= my)%positive; reflexivity.
Qed.

Lemma SFcompare_defined x y :
  F32.is_nan x = false -> F32.is_nan y = false ->
  exists c, SFcompare x y = Some c.
Proof. destruct x, y; cbn; intros; try discriminate; eauto. Qed.

(** On numbers, "not less" is "greater or equal". *)
Lemma not_ltb_leb x y :
  F32.is_nan x = false -> F32.is_nan y = false ->
  F32.ltb x y = false -> F32.leb y x = true.
Proof.
  intros Hx Hy. destruct (SFcompare_defined x y Hx Hy) as [c Hc].
  unfold F32.ltb, F32.leb, SFltb, SFleb.
  rewrite Hc, (SFcompare_antisym _ _ _ Hc).
  destruct c; cbn; congruence.
Qed.

Lemma ltb_irrefl x : F32.ltb x x = false.
Proof.
  unfold F32.ltb, SFltb. destruct (SFcompare x x) as [c|] eqn:Hc;
    [|reflexivity].
  pose proof (SFcompare_antisym _ _ _ Hc) as H. rewrite Hc in H.
  destruct c; try reflexivity; discriminate.
Qed.

Lemma ltb_nan_l x y : F32.is_nan x = true -> F32.ltb x y = false.
Proof. destruct x; try discriminate. reflexivity. Qed.

Lemma ltb_nan_r x y : F32.is_nan y = true -> F32.ltb x y = false.
Proof. destruct y; try discriminate. destruct x; reflexivity. Qed.

(** Rounding never invents a NaN. *)
Lemma iter_pos_invariant {A} (P : A -> Prop) (f : A -> A) :
  (forall x, P x -> P (f x)) -> forall p x, P x -> P (iter_pos f p x).
Proof.
  intros Hf. induction p as [p IH|p IH|]; intros x Hx; cbn; auto.
Qed.

Lemma shr_1_nonneg mrs : 0 <= shr_m mrs -> 0 <= shr_m (shr_1 mrs).
Proof.
  destruct mrs as [m r s]. cbn. destruct m as [|[p|p|]|[p|p|]]; cbn; lia.
Qed.

Lemma shr_nonneg mrs e n : 0 <= shr_m mrs -> 0 <= shr_m (fst (shr mrs e n)).
Proof.
  intros H. destruct n; cbn; auto.
  apply (iter_pos_invariant (fun x => 0 <= shr_m x)); auto using shr_1_nonneg.
Qed.

Lemma shr_fexp_nonneg m e l :
  0 <= m -> 0 <= shr_m (fst (shr_fexp F32.prec F32.emax m e l)).
Proof.
  intros H. unfold shr_fexp. apply shr_nonneg. destruct l as [|[]]; exact H.
Qed.

Lemma round_nearest_even_nonneg m l : 0 <= m -> 0 <= round_nearest_even m l.
Proof.
  intros H. destruct l as [|[]]; cbn; try lia. destruct (Z.even m); lia.
Qed.

Lemma binary_round_aux_not_nan s m e l :
  0 <= m -> F32.is_nan (binary_round_aux F32.prec F32.emax s m e l) = false.
Proof.
  intros H. unfold binary_round_aux.
  pose proof (shr_fexp_nonneg m e l H) as H1.
  destruct (shr_fexp F32.prec F32.emax m e l) as [mrs' e'].
  cbn [fst] in H1.
  pose proof (shr_fexp_nonneg _ e' loc_Exact
                (round_nearest_even_nonneg _ (loc_of_shr_record mrs') H1))
    as H2.
  destruct (shr_fexp F32.prec F32.emax _ e' loc_Exact) as [mrs'' e''].
  cbn [fst] in H2.
  destruct (shr_m mrs''); [reflexivity| |lia].
  destruct (e'' <=? F32.emax - F32.prec); reflexivity.
Qed.

Lemma of_Z_not_nan n : F32.is_nan (F32.of_Z n) = false.
Proof.
  unfold F32.of_Z, binary_normalize, binary_round.
  destruct n; [reflexivity| |];
    match goal with
    | |- context [shl_align ?a ?b ?c] => destruct (shl_align a b c)
    end;
    apply binary_round_aux_not_nan; lia.
Qed.

Lemma mul_finite_not_nan x y :
  F32.is_nan x = false -> finite_nonzero y = true ->
  F32.is_nan (F32.mul x y) = false.
Proof.
  destruct y as [| | |s m e]; try discriminate. intros Hx _.
  destruct x; try discriminate; try reflexivity.
  apply binary_round_aux_not_nan. lia.
Qed.

Lemma div_finite_not_nan x y :
  F32.is_nan x = false -> finite_nonzero y = true ->
  F32.is_nan (F32.div x y) = false.
Proof.
  destruct y as [| | |s m e]; try discriminate. intros Hx _.
  destruct x as [| | |sx mx ex]; try discriminate; try reflexivity.
  unfold F32.div, SFdiv, SFdiv_core_binary.
  set (sh := ex - e - _).
  set (m' := match sh with Z0 => _ | Zpos _ => _ | Zneg _ => _ end).
  assert (Hm' : 0 <= m').
  { subst m'. destruct sh; try lia. apply Z.shiftl_nonneg. lia. }
  pose proof (Z_div_mod m' (Z.pos m) ltac:(lia)) as Hq.
  destruct (Z.div_eucl m' (Z.pos m)) as [q r].
  apply binary_round_aux_not_nan. nia.
Qed.

(** [constrainf] never returns a value below [low] or above [high]
    when [low <= high] are numbers. *)
Lemma constrainf_not_below amt low high :
  F32.ltb high low = false ->
  F32.ltb (constrainf amt low high) low = false.
Proof.
  intros Hlh. unfold constrainf.
  destruct (F32.ltb amt low) eqn:H1; [apply ltb_irrefl|].
  destruct (F32.gtb amt high) eqn:H2; assumption.
Qed.

Lemma constrainf_not_above amt low high :
  F32.ltb high low = false ->
  F32.gtb (constrainf amt low high) high = false.
Proof.
  intros Hlh. unfold constrainf.
  destruct (F32.ltb amt low) eqn:H1; [exact Hlh|].
  destruct (F32.gtb amt high) eqn:H2; [exact (ltb_irrefl high) | exact H2].
Qed.

Lemma constrainf_not_nan amt low high :
  F32.is_nan amt = false -> F32.is_nan low = false ->
  F32.is_nan high = false ->
  F32.is_nan (constrainf amt low high) = false.
Proof.
  intros. unfold constrainf.
  destruct (F32.ltb amt low); [assumption|].
  destruct (F32.gtb amt high); assumption.
Qed.

Lemma fwDecrease_not_nan g :
  F32.is_nan g = false -> F32.is_nan (fwDecrease g) = false.
Proof.
  intros H. unfold fwDecrease. cbv zeta.
  match goal with |- context [if ?c then _ else _] => destruct c end;
    [apply of_Z_not_nan|].
  apply div_finite_not_nan; [|reflexivity].
  apply mul_finite_not_nan; [exact H|reflexivity].
Qed.

Lemma fwIncrease_not_nan g :
  F32.is_nan g = false -> F32.is_nan (fwIncrease g) = false.
Proof.
  intros H. unfold fwIncrease. cbv zeta.
  match goal with |- context [if ?c then _ else _] => destruct c end;
    [apply of_Z_not_nan|].
  apply div_finite_not_nan; [|reflexivity].
  apply mul_finite_not_nan; [exact H|reflexivity].
Qed.

Lemma fwDecrease_not_below g :
  F32.ltb (fwDecrease g) (F32.of_Z AUTOTUNE_FIXED_WING_MIN_FF) = false.
Proof.
  unfold fwDecrease. cbv zeta.
  match goal with |- context [if ?c then _ else _] => destruct c eqn:E end;
    [apply ltb_irrefl | exact E].
Qed.

Lemma fwIncrease_not_above g :
  F32.gtb (fwIncrease g) (F32.of_Z AUTOTUNE_FIXED_WING_MAX_FF) = false.
Proof.
  unfold fwIncrease. cbv zeta.
  match goal with |- context [if ?c then _ else _] => destruct c eqn:E end;
    [apply ltb_irrefl | exact E].
Qed.

Lemma derivedGainI_not_nan cfg g :
  finite_nonzero (FP_PID_RATE_FF_MULTIPLIER cfg) = true ->
  finite_nonzero (FP_PID_RATE_I_MULTIPLIER cfg) = true ->
  F32.is_nan g = false -> F32.is_nan (derivedGainI cfg g) = false.
Proof.
  intros HF HI Hg. unfold derivedGainI.
  apply constrainf_not_nan; try reflexivity.
  apply mul_finite_not_nan; [|exact HI].
  apply mul_finite_not_nan; [|reflexivity].
  apply div_finite_not_nan; assumption.
Qed.

Lemma derivedGainP_not_nan g :
  F32.is_nan g = false -> F32.is_nan (derivedGainP g) = false.
Proof. intros H. apply mul_finite_not_nan; [exact H|reflexivity]. Qed.

(* ================================================================== *)
(** ** Reading the net effects                                         *)
(* ================================================================== *)

Lemma pidAutotuneState_eqb_eq a b :
  pidAutotuneState_eqb a b = true <-> a = b.
Proof. destruct a, b; cbn; split; congruence. Qed.

Lemma nth_upd_axis_same {A} (v : xyz A) a x : upd_axis v a x a = x.
Proof. destruct a; reflexivity. Qed.

Lemma nth_upd_axis_other {A} (v : xyz A) a b x :
  a <> b -> upd_axis v a x b = v b.
Proof. destruct a, b; intros H; try reflexivity; congruence. Qed.

Lemma gainsUpdated_changed cfg w axis d r o :
  gainsUpdated cfg w axis d r o = true -> regimeChanged cfg w axis d r = true.
Proof. unfold gainsUpdated. intros H. apply andb_prop in H. tauto. Qed.

Lemma regimeChanged_iff cfg w axis d r :
  regimeChanged cfg w axis d r = true <->
  newState cfg w axis d r <> state (tuneCurrent w axis).
Proof.
  unfold regimeChanged. rewrite negb_true_iff, <- not_true_iff_false.
  rewrite pidAutotuneState_eqb_eq. tauto.
Qed.

Ltac effect_fields :=
  cbn [tuneCurrent tuneSaved lastGainsUpdateTime pidBank pidGainsUpdates
       flightMode_AUTO_TUNE sysTime millisCalls
       set_tuneCurrent set_tuneSaved set_lastGainsUpdateTime set_pidBank
       set_pidGainsUpdates set_flightMode_AUTO_TUNE set_millisCalls
       gainsApplied
       state stateEnterTime pidSaturated gainP gainI gainD
       set_state set_stateEnterTime set_pidSaturated set_gainP set_gainI
       set_gainD].

(** The axis a call works on, after the call. *)
Lemma fw_axis cfg axis d r o w :
  let old := tuneCurrent w axis in
  let upd := gainsUpdated cfg w axis d r o in
  let g := if upd then steppedGainD (state old) (gainD old) else gainD old in
  tuneCurrent (fwEffect cfg axis d r o w) axis =
  if regimeChanged cfg w axis d r then
    mkTune (newState cfg w axis d r) (currentTime w) false
           (if upd then derivedGainP g else gainP old)
           (if upd then derivedGainI cfg g else gainI old) g
  else set_pidSaturated (saturatedNow cfg w axis o) old.
Proof.
  cbv zeta. unfold fwEffect.
  destruct (regimeChanged cfg w axis d r); [|effect_fields; apply nth_upd_axis_same].
  destruct (gainsUpdated cfg w axis d r o); effect_fields;
    apply nth_upd_axis_same.
Qed.

Lemma fw_other_axis cfg axis d r o w b :
  axis <> b ->
  tuneCurrent (fwEffect cfg axis d r o w) b = tuneCurrent w b.
Proof.
  intros Hb. unfold fwEffect.
  destruct (regimeChanged cfg w axis d r);
    [destruct (gainsUpdated cfg w axis d r o)|]; effect_fields;
    apply nth_upd_axis_other, Hb.
Qed.

(** What a call never touches. *)
Lemma fw_frame cfg axis d r o w :
  let w' := fwEffect cfg axis d r o w in
  tuneSaved w' = tuneSaved w /\
  lastGainsUpdateTime w' = lastGainsUpdateTime w /\
  flightMode_AUTO_TUNE w' = flightMode_AUTO_TUNE w /\
  sysTime w' = sysTime w /\
  millisCalls w' = S (millisCalls w) /\
  pidBank w' PID_LEVEL = pidBank w PID_LEVEL.
Proof.
  cbv zeta. unfold fwEffect.
  destruct (regimeChanged cfg w axis d r);
    [destruct (gainsUpdated cfg w axis d r o)|]; effect_fields;
    repeat split; reflexivity.
Qed.

(** The bank after a call: one full push, or nothing. *)
Lemma fw_bank cfg axis d r o w :
  let w' := fwEffect cfg axis d r o w in
  if gainsUpdated cfg w axis d r o then
    (forall b, pidBank w' (pidOfAxis b) = appliedGains (tuneCurrent w' b)) /\
    pidGainsUpdates w' = S (pidGainsUpdates w)
  else
    pidBank w' = pidBank w /\ pidGainsUpdates w' = pidGainsUpdates w.
Proof.
  cbv zeta. unfold fwEffect.
  destruct (gainsUpdated cfg w axis d r o) eqn:Hu.
  - rewrite (gainsUpdated_changed _ _ _ _ _ _ Hu). effect_fields.
    split; [intros b; destruct b; reflexivity | reflexivity].
  - destruct (regimeChanged cfg w axis d r); effect_fields; split; reflexivity.
Qed.

Lemma fw_gains cfg axis d r o w :
  let old := tuneCurrent w axis in
  let new := tuneCurrent (fwEffect cfg axis d r o w) axis in
  if gainsUpdated cfg w axis d r o then
    gainD new = steppedGainD (state old) (gainD old) /\
    gainP new = derivedGainP (gainD new) /\
    gainI new = derivedGainI cfg (gainD new)
  else sameGains old new.
Proof.
  cbv zeta. rewrite fw_axis. cbv zeta.
  destruct (gainsUpdated cfg w axis d r o) eqn:Hu.
  - rewrite (gainsUpdated_changed _ _ _ _ _ _ Hu). effect_fields.
    repeat split; reflexivity.
  - destruct (regimeChanged cfg w axis d r); effect_fields;
      repeat split; reflexivity.
Qed.

Lemma exec_runCalls_cons cfg c cs w :
  exec (runCalls cfg (c :: cs)) w =
  exec (runCalls cfg cs) (exec (runCall cfg c) w).
Proof. reflexivity. Qed.

Lemma exec_runCall cfg c w :
  exec (runCall cfg c) w =
  fwEffect cfg (callAxis c) (callDesired c) (callReached c) (callOutput c) w.
Proof. apply exec_autotuneFixedWingUpdate. Qed.

(** Sequences of per-axis calls leave the checkpoint and the mode alone. *)
Lemma runCalls_frame cfg cs : forall w,
  let w' := exec (runCalls cfg cs) w in
  tuneSaved w' = tuneSaved w /\
  lastGainsUpdateTime w' = lastGainsUpdateTime w /\
  flightMode_AUTO_TUNE w' = flightMode_AUTO_TUNE w /\
  pidBank w' PID_LEVEL = pidBank w PID_LEVEL.
Proof.
  induction cs as [|c cs IH]; intros w; cbv zeta.
  - repeat split; reflexivity.
  - rewrite exec_runCalls_cons, exec_runCall.
    destruct (IH (fwEffect cfg (callAxis c) (callDesired c) (callReached c)
                           (callOutput c) w)) as (H1 & H2 & H3 & H4).
    destruct (fw_frame cfg (callAxis c) (callDesired c) (callReached c)
                       (callOutput c) w) as (F1 & F2 & F3 & _ & _ & F6).
    repeat split; congruence.
Qed.

Lemma gainsApplied_bank data w axis :
  pidBank (gainsApplied data w) (pidOfAxis axis) = appliedGains (data axis).
Proof. destruct axis; reflexivity. Qed.

Lemma checkEffect_idle w :
  (uint32 (currentTime w - lastGainsUpdateTime w) <? AUTOTUNE_SAVE_PERIOD)
  = true ->
  checkEffect w = set_millisCalls (S (millisCalls w)) w.
Proof. intros H. unfold checkEffect. rewrite H. reflexivity. Qed.

Lemma checkEffect_fire w :
  (uint32 (currentTime w - lastGainsUpdateTime w) <? AUTOTUNE_SAVE_PERIOD)
  = false ->
  checkEffect w =
  set_lastGainsUpdateTime (currentTime w)
    (gainsApplied (tuneCurrent w)
       (set_tuneSaved (tuneCurrent w)
          (set_millisCalls (S (millisCalls w)) w))).
Proof. intros H. unfold checkEffect. rewrite H. reflexivity. Qed.

(* ================================================================== *)
(** ** Session controller and commit scheduler                         *)
(* ================================================================== *)

(** C1. When the session update sees "not requested or disarmed" while a
    tuning session is active, it writes the [tuneSaved] snapshot of every
    axis to the bank and clears the flight-mode flag in that call.  The
    snapshot is the one of the last commit: whatever per-axis updates
    [cs] ran since then, and whatever they pushed to the bank, the bank
    ends up holding the applied gains of [tuneSaved]. *)
Theorem abort_restores_checkpoint (cfg : config) (cs : list axisCall)
    (w : world) (rcModeAutotune armed : bool) :
  rcModeAutotune && armed = false ->
  flightMode_AUTO_TUNE w = true ->
  let w1 := exec (runCalls cfg cs) w in
  let w2 := exec (autotuneUpdateState rcModeAutotune armed) w1 in
  (forall axis, pidBank w2 (pidOfAxis axis) = appliedGains (tuneSaved w axis))
  /\ flightMode_AUTO_TUNE w2 = false
  /\ tuneSaved w2 = tuneSaved w
  /\ pidGainsUpdates w2 = S (pidGainsUpdates w1).
Proof.
  intros Hoff Hon. cbv zeta.
  destruct (runCalls_frame cfg cs w) as (Hs & _ & Hf & _).
  rewrite exec_autotuneUpdateState. unfold updateStateEffect.
  rewrite Hoff, Hf, Hon. effect_fields. rewrite Hs.
  repeat split; try reflexivity.
  intros axis. destruct axis; reflexivity.
Qed.

(** C2. One call of the commit scheduler either finds less than 5000 ms
    elapsed since [lastGainsUpdateTime] and changes nothing (only the
    clock has been read), or finds at least 5000 ms elapsed, copies
    [tuneCurrent] over [tuneSaved] whole, writes it to the bank and sets
    [lastGainsUpdateTime] to the time read; a call that follows a firing
    one by less than 5000 ms does not fire. *)
Theorem commit_fires_once_per_period (w : world) :
  let elapsed := uint32 (currentTime w - lastGainsUpdateTime w) in
  let w' := exec autotuneCheckUpdateGains w in
  (elapsed < AUTOTUNE_SAVE_PERIOD /\
   w' = set_millisCalls (S (millisCalls w)) w)
  \/
  (AUTOTUNE_SAVE_PERIOD <= elapsed /\
   tuneSaved w' = tuneCurrent w /\
   tuneCurrent w' = tuneCurrent w /\
   (forall axis,
      pidBank w' (pidOfAxis axis) = appliedGains (tuneSaved w' axis)) /\
   pidBank w' PID_LEVEL = pidBank w PID_LEVEL /\
   pidGainsUpdates w' = S (pidGainsUpdates w) /\
   flightMode_AUTO_TUNE w' = flightMode_AUTO_TUNE w /\
   lastGainsUpdateTime w' = currentTime w /\
   (uint32 (currentTime w' - currentTime w) < AUTOTUNE_SAVE_PERIOD ->
    exec autotuneCheckUpdateGains w' = set_millisCalls (S (millisCalls w')) w')).
Proof.
  cbv zeta. rewrite exec_autotuneCheckUpdateGains.
  destruct (uint32 (currentTime w - lastGainsUpdateTime w)
            <? AUTOTUNE_SAVE_PERIOD) eqn:He.
  - left. rewrite (checkEffect_idle w He).
    split; [apply Z.ltb_lt, He | reflexivity].
  - right. rewrite (checkEffect_fire w He). apply Z.ltb_ge in He.
    effect_fields. repeat split; try reflexivity; try assumption.
    + intros axis. destruct axis; reflexivity.
    + intros Hnext. rewrite exec_autotuneCheckUpdateGains.
      apply checkEffect_idle, Z.ltb_lt. exact Hnext.
Qed.

(** C3. When the session update sees "requested and armed" with no
    session active, every axis gets, in [tuneCurrent] and in [tuneSaved],
    the bank's gains of that instant as floats, regime [DEMAND_TOO_LOW],
    a cleared saturation flag and the time read for that axis; the flag
    is set and [lastGainsUpdateTime] is the last time read.  If the clock
    does not advance during the call all those times are [currentTime]. *)
Theorem session_start_reseeds (w : world) (rcModeAutotune armed : bool) :
  rcModeAutotune && armed = true ->
  flightMode_AUTO_TUNE w = false ->
  let w' := exec (autotuneUpdateState rcModeAutotune armed) w in
  (forall axis,
     let t := tuneCurrent w' axis in
     seededGains (pidBank w (pidOfAxis axis)) t /\
     state t = DEMAND_TOO_LOW /\
     pidSaturated t = false /\
     stateEnterTime t = clockAt w (axisRank axis)) /\
  tuneSaved w' = tuneCurrent w' /\
  flightMode_AUTO_TUNE w' = true /\
  lastGainsUpdateTime w' = clockAt w 3 /\
  pidBank w' = pidBank w /\
  pidGainsUpdates w' = pidGainsUpdates w /\
  ((forall i, (i < 4)%nat -> clockAt w i = currentTime w) ->
   (forall axis, stateEnterTime (tuneCurrent w' axis) = currentTime w) /\
   lastGainsUpdateTime w' = currentTime w).
Proof.
  intros Hon Hoff. cbv zeta.
  rewrite exec_autotuneUpdateState. unfold updateStateEffect.
  rewrite Hon, Hoff. unfold startEffect. effect_fields.
  repeat split; try reflexivity.
  - destruct axis; reflexivity.
  - destruct axis; reflexivity.
  - destruct axis; reflexivity.
  - destruct axis; reflexivity.
  - destruct axis; reflexivity.
  - destruct axis; reflexivity.
  - destruct axis; cbn; apply H; lia.
  - apply H; lia.
Qed.

(* ================================================================== *)
(** ** Per-axis tuning law                                             *)
(* ================================================================== *)

(** C4. After a per-axis update the stored regime is the classification
    of this call: [DEMAND_TOO_LOW] when |desired| < 0.75 * maxDesiredRate,
    whatever was reached; otherwise [DEMAND_OVERSHOOT] when
    |reached| > |desired|; otherwise [DEMAND_UNDERSHOOT].  maxDesiredRate
    is the configured rate of the axis, and for roll and pitch the smaller
    of that and the angle-mode ceiling. *)
Theorem classification_law (cfg : config) (w : world)
    (axis : flight_dynamics_index_t) (d r o : F32.float) :
  let w' := exec (autotuneFixedWingUpdate cfg axis d r o) w in
  state (tuneCurrent w' axis) = newState cfg w axis d r /\
  newState cfg w axis d r =
    (if (fabsf d <? f_0_75 * maxDesiredRate cfg w axis)%f32
     then DEMAND_TOO_LOW
     else if (fabsf r >? fabsf d)%f32 then DEMAND_OVERSHOOT
     else DEMAND_UNDERSHOOT) /\
  ((fabsf d <? f_0_75 * maxDesiredRate cfg w axis)%f32 = true ->
   forall r' o',
     state (tuneCurrent (exec (autotuneFixedWingUpdate cfg axis d r' o') w)
                        axis) = DEMAND_TOO_LOW) /\
  maxDesiredRate cfg w FD_YAW = (F32.of_Z (rates cfg FD_YAW) * f_10)%f32 /\
  (forall a, a <> FD_YAW ->
     maxDesiredRate cfg w a =
     MIN (F32.of_Z (rates cfg a) * f_10)%f32
         (maxDesiredRateInAngleMode cfg w a)).
Proof.
  assert (Hstate : forall r0 o0,
    state (tuneCurrent (exec (autotuneFixedWingUpdate cfg axis d r0 o0) w)
                       axis) = newState cfg w axis d r0).
  { intros r0 o0. rewrite exec_autotuneFixedWingUpdate, fw_axis. cbv zeta.
    destruct (regimeChanged cfg w axis d r0) eqn:Hc; [reflexivity|].
    unfold regimeChanged in Hc. apply negb_false_iff in Hc.
    apply pidAutotuneState_eqb_eq in Hc. effect_fields. congruence. }
  cbv zeta. repeat split.
  - apply Hstate.
  - intros Hlow r' o'. rewrite Hstate. unfold newState. rewrite Hlow.
    reflexivity.
  - intros a Ha. destruct a; try reflexivity. congruence.
Qed.

(** C5. Leaving [DEMAND_OVERSHOOT]: with a dwell of at least 100 ms the
    new [gainD] is the old one times 92 over 100, raised to 10 when that
    is below 10; with a shorter dwell [gainD] is unchanged.  The result
    of the decrease is never below 10, 10 stays 10, and 50 becomes 46. *)
Theorem overshoot_exit_decreases_gainD (cfg : config) (w : world)
    (axis : flight_dynamics_index_t) (d r o : F32.float) :
  state (tuneCurrent w axis) = DEMAND_OVERSHOOT ->
  newState cfg w axis d r <> DEMAND_OVERSHOOT ->
  let g := gainD (tuneCurrent w axis) in
  let g' := gainD (tuneCurrent
                     (exec (autotuneFixedWingUpdate cfg axis d r o) w) axis) in
  (AUTOTUNE_FIXED_WING_OVERSHOOT_TIME <= stateTimeMs w axis ->
   g' = fwDecrease g) /\
  (stateTimeMs w axis < AUTOTUNE_FIXED_WING_OVERSHOOT_TIME -> g' = g) /\
  (fwDecrease g <? F32.of_Z 10)%f32 = false /\
  fwDecrease (F32.of_Z 10) = F32.of_Z 10 /\
  fwDecrease (F32.of_Z 50) = F32.of_Z 46.
Proof.
  intros Hst Hns. cbv zeta.
  assert (Hc : regimeChanged cfg w axis d r = true)
    by (apply regimeChanged_iff; congruence).
  rewrite exec_autotuneFixedWingUpdate.
  pose proof (fw_gains cfg axis d r o w) as Hg. cbv zeta in Hg.
  unfold gainsUpdated in Hg. rewrite Hc, Hst in Hg. cbn [andb] in Hg.
  repeat split.
  - intros Hd. apply Z.geb_le in Hd. rewrite Hd in Hg. apply Hg.
  - intros Hd.
    assert (Hd' : (stateTimeMs w axis >=? AUTOTUNE_FIXED_WING_OVERSHOOT_TIME)
                  = false)
      by (rewrite Z.geb_leb; apply Z.leb_gt; exact Hd).
    rewrite Hd' in Hg. apply Hg.
  - apply fwDecrease_not_below.
Qed.

(** C6. Leaving [DEMAND_UNDERSHOOT]: [gainD] becomes the old one times
    105 over 100, lowered to 200 when that is above 200, exactly when the
    dwell is at least 200 ms and the saturation flag, as the switch reads
    it, is false; otherwise it is unchanged, in particular whenever the
    stored flag is set.  The result of the increase is never above 200,
    and 190 becomes 199.5. *)
Theorem undershoot_exit_increases_gainD (cfg : config) (w : world)
    (axis : flight_dynamics_index_t) (d r o : F32.float) :
  state (tuneCurrent w axis) = DEMAND_UNDERSHOOT ->
  newState cfg w axis d r <> DEMAND_UNDERSHOOT ->
  let g := gainD (tuneCurrent w axis) in
  let g' := gainD (tuneCurrent
                     (exec (autotuneFixedWingUpdate cfg axis d r o) w) axis) in
  (AUTOTUNE_FIXED_WING_UNDERSHOOT_TIME <= stateTimeMs w axis ->
   saturatedNow cfg w axis o = false -> g' = fwIncrease g) /\
  (stateTimeMs w axis < AUTOTUNE_FIXED_WING_UNDERSHOOT_TIME \/
   saturatedNow cfg w axis o = true -> g' = g) /\
  (pidSaturated (tuneCurrent w axis) = true -> g' = g) /\
  (fwIncrease g >? F32.of_Z 200)%f32 = false /\
  fwIncrease (F32.of_Z 190) = F32.lit 399 (-1).
Proof.
  intros Hst Hns. cbv zeta.
  assert (Hc : regimeChanged cfg w axis d r = true)
    by (apply regimeChanged_iff; congruence).
  rewrite exec_autotuneFixedWingUpdate.
  pose proof (fw_gains cfg axis d r o w) as Hg. cbv zeta in Hg.
  unfold gainsUpdated in Hg. rewrite Hc, Hst in Hg. cbn [andb] in Hg.
  assert (Hno : stateTimeMs w axis < AUTOTUNE_FIXED_WING_UNDERSHOOT_TIME \/
                saturatedNow cfg w axis o = true ->
                gainD (tuneCurrent (fwEffect cfg axis d r o w) axis) =
                gainD (tuneCurrent w axis)).
  { intros [Hd|Hs].
    - assert (Hd' : (stateTimeMs w axis
                     >=? AUTOTUNE_FIXED_WING_UNDERSHOOT_TIME) = false)
        by (rewrite Z.geb_leb; apply Z.leb_gt; exact Hd).
      rewrite Hd' in Hg. apply Hg.
    - rewrite Hs, andb_false_r in Hg. apply Hg. }
  repeat split.
  - intros Hd Hs. apply Z.geb_le in Hd. rewrite Hd, Hs in Hg. apply Hg.
  - exact Hno.
  - intros Hs. apply Hno. right. unfold saturatedNow. rewrite Hs.
    apply orb_true_r.
  - apply fwIncrease_not_above.
Qed.


Lemma sameGains_refl t : sameGains t t.
Proof. repeat split. Qed.

Lemma sameGains_trans t1 t2 t3 :
  sameGains t1 t2 -> sameGains t2 t3 -> sameGains t1 t3.
Proof. unfold sameGains. intros (A1 & A2 & A3) (B1 & B2 & B3).
  repeat split; congruence. Qed.

Lemma axis_eq_dec (a b : flight_dynamics_index_t) : {a = b} + {a <> b}.
Proof. decide equality. Qed.

Lemma dampedCall_no_update cfg c w :
  dampedCall cfg c w = true ->
  gainsUpdated cfg w (callAxis c) (callDesired c) (callReached c)
               (callOutput c) = false.
Proof.
  unfold dampedCall, gainsUpdated.
  destruct (regimeChanged cfg w (callAxis c) (callDesired c) (callReached c));
    [|reflexivity].
  cbn [andb]. destruct (state (tuneCurrent w (callAxis c))); intros H;
    try reflexivity; apply Z.ltb_lt in H.
  - replace (stateTimeMs w (callAxis c) >=? _) with false; [reflexivity|].
    symmetry. rewrite Z.geb_leb. apply Z.leb_gt, H.
  - rewrite Z.geb_leb. apply Z.leb_gt, H.
Qed.

(** A call that steps no gain leaves every axis's gains and the bank. *)
Lemma fw_no_update cfg axis d r o w :
  gainsUpdated cfg w axis d r o = false ->
  let w' := fwEffect cfg axis d r o w in
  (forall b, sameGains (tuneCurrent w b) (tuneCurrent w' b)) /\
  pidBank w' = pidBank w /\ pidGainsUpdates w' = pidGainsUpdates w.
Proof.
  intros Hu. cbv zeta.
  pose proof (fw_gains cfg axis d r o w) as Hg.
  pose proof (fw_bank cfg axis d r o w) as Hb. cbv zeta in Hg, Hb.
  rewrite Hu in Hg, Hb. split; [|exact Hb].
  intros b. destruct (axis_eq_dec axis b) as [<-|Hne]; [exact Hg|].
  rewrite fw_other_axis by exact Hne. apply sameGains_refl.
Qed.

(** C8. Over a sequence of per-axis updates in which every regime change
    leaves a regime whose dwell is under its floor (100 ms for overshoot,
    200 ms for undershoot, any dwell for too-low), no [gainP], [gainI] or
    [gainD] of any axis changes and the bank is never written; and every
    call that changes the regime stores the new regime, the current time
    and a cleared saturation flag. *)
Theorem dwell_damping (cfg : config) (cs : list axisCall) (w : world) :
  damped cfg cs w = true ->
  let w' := exec (runCalls cfg cs) w in
  (forall b, sameGains (tuneCurrent w b) (tuneCurrent w' b)) /\
  pidBank w' = pidBank w /\
  pidGainsUpdates w' = pidGainsUpdates w /\
  (forall c w0,
     regimeChanged cfg w0 (callAxis c) (callDesired c) (callReached c)
       = true ->
     let t := tuneCurrent (exec (runCall cfg c) w0) (callAxis c) in
     state t = newState cfg w0 (callAxis c) (callDesired c) (callReached c) /\
     stateEnterTime t = currentTime w0 /\
     pidSaturated t = false).
Proof.
  intros Hd. cbv zeta.
  assert (Hseq : forall cs w, damped cfg cs w = true ->
    (forall b, sameGains (tuneCurrent w b)
                         (tuneCurrent (exec (runCalls cfg cs) w) b)) /\
    pidBank (exec (runCalls cfg cs) w) = pidBank w /\
    pidGainsUpdates (exec (runCalls cfg cs) w) = pidGainsUpdates w).
  { clear. induction cs as [|c cs IH]; intros w Hd.
    - repeat split.
    - cbn [damped] in Hd. apply andb_prop in Hd. destruct Hd as [Hc Hrest].
      rewrite exec_runCalls_cons. rewrite exec_runCall in Hrest |- *.
      destruct (fw_no_update cfg _ _ _ _ w (dampedCall_no_update _ _ _ Hc))
        as (G1 & G2 & G3).
      destruct (IH _ Hrest) as (I1 & I2 & I3).
      repeat split; try congruence.
      all: destruct (G1 b) as (? & ? & ?); destruct (I1 b) as (? & ? & ?);
        congruence. }
  destruct (Hseq cs w Hd) as (H1 & H2 & H3).
  repeat split; try assumption; try apply H1.
  all: rewrite exec_runCall, fw_axis; cbv zeta; rewrite H; reflexivity.
Qed.

(** Whatever gains an axis was seeded with, a gain step of the per-axis
    law clamps the stepped axis on the side it moves to: with gains that
    are numbers and finite nonzero scale factors, the working [gainD] is
    at least 10 after a decrease and at most 200 after an increase, and
    the working [gainI] is neither below 1 nor above 50; the push that
    follows stores, for every axis, the rounding of the working gains in
    the bank's 0..255 fields. *)
Theorem stepped_gains_are_clamped (cfg : config) (w : world)
    (axis : flight_dynamics_index_t) (d r o : F32.float) :
  gainsUpdated cfg w axis d r o = true ->
  F32.is_nan (gainD (tuneCurrent w axis)) = false ->
  finite_nonzero (FP_PID_RATE_FF_MULTIPLIER cfg) = true ->
  finite_nonzero (FP_PID_RATE_I_MULTIPLIER cfg) = true ->
  let w' := exec (autotuneFixedWingUpdate cfg axis d r o) w in
  let old := tuneCurrent w axis in
  let new := tuneCurrent w' axis in
  (state old = DEMAND_OVERSHOOT ->
   F32.leb (F32.of_Z AUTOTUNE_FIXED_WING_MIN_FF) (gainD new) = true) /\
  (state old = DEMAND_UNDERSHOOT ->
   F32.leb (gainD new) (F32.of_Z AUTOTUNE_FIXED_WING_MAX_FF) = true) /\
  F32.leb f_1 (gainI new) = true /\
  F32.leb (gainI new) f_50 = true /\
  (forall b, pidBank w' (pidOfAxis b) = appliedGains (tuneCurrent w' b) /\
             fitsBank (pidBank w' (pidOfAxis b))).
Proof.
  intros Hu Hnan HF HI. cbv zeta. rewrite exec_autotuneFixedWingUpdate.
  pose proof (fw_gains cfg axis d r o w) as Hg.
  pose proof (fw_bank cfg axis d r o w) as Hb. cbv zeta in Hg, Hb.
  rewrite Hu in Hg, Hb. destruct Hg as (HD & HP & HIe). destruct Hb as (Hb & _).
  assert (HnD : F32.is_nan (gainD (tuneCurrent (fwEffect cfg axis d r o w)
                                               axis)) = false).
  { rewrite HD. destruct (state (tuneCurrent w axis)); cbn [steppedGainD];
      auto using fwDecrease_not_nan, fwIncrease_not_nan. }
  assert (HnI : F32.is_nan (gainI (tuneCurrent (fwEffect cfg axis d r o w)
                                               axis)) = false).
  { rewrite HIe. apply derivedGainI_not_nan; assumption. }
  repeat split.
  - intros Hst. apply not_ltb_leb; [exact HnD | apply of_Z_not_nan |].
    rewrite HD, Hst. apply fwDecrease_not_below.
  - intros Hst. apply not_ltb_leb; [apply of_Z_not_nan | exact HnD |].
    rewrite HD, Hst. apply fwIncrease_not_above.
  - apply not_ltb_leb; [exact HnI | reflexivity |].
    rewrite HIe. apply constrainf_not_below. reflexivity.
  - apply not_ltb_leb; [reflexivity | exact HnI |].
    rewrite HIe. apply (constrainf_not_above _ f_1 f_50). reflexivity.
  - apply Hb.
  - rewrite Hb. apply uint8_range.
  - rewrite Hb. apply uint8_range.
  - rewrite Hb. apply uint8_range.
  - rewrite Hb. apply uint8_range.
  - rewrite Hb. apply uint8_range.
  - rewrite Hb. apply uint8_range.
Qed.

(** C10. Every application of gains stores, per axis, [lrintf] of the
    working float reduced to the 8-bit field, and leaves the session's
    floats as they are; [lrintf] is off by at most one half, and by exactly
    one half at 199.5; a session started after a push is seeded with the
    rounded integers, so 199.5 comes back as 200. *)
Theorem gain_application_rounds :
  (forall w,
     let w' := exec (autotuneUpdateGains tuneCurrent) w in
     (forall a, pidBank w' (pidOfAxis a) =
                Pid8.mk (uint8 (lrintf (gainP (tuneCurrent w a))))
                        (uint8 (lrintf (gainI (tuneCurrent w a))))
                        (uint8 (lrintf (gainD (tuneCurrent w a))))) /\
     tuneCurrent w' = tuneCurrent w /\ tuneSaved w' = tuneSaved w) /\
  (forall w,
     let w' := exec (autotuneUpdateGains tuneSaved) w in
     (forall a, pidBank w' (pidOfAxis a) =
                Pid8.mk (uint8 (lrintf (gainP (tuneSaved w a))))
                        (uint8 (lrintf (gainI (tuneSaved w a))))
                        (uint8 (lrintf (gainD (tuneSaved w a))))) /\
     tuneCurrent w' = tuneCurrent w /\ tuneSaved w' = tuneSaved w) /\
  (forall s m e,
     let x := S754_finite s m e in
     let k := Z.max 0 (- e) in
     2 * Z.abs (F32.scaled k x - lrintf x * 2 ^ k) <= 2 ^ k) /\
  (let x := F32.lit 399 (-1) in
   lrintf x = 200 /\
   2 * Z.abs (F32.scaled 16 x - lrintf x * 2 ^ 16) = 2 ^ 16) /\
  (forall w a,
     let w1 := exec (autotuneUpdateGains tuneCurrent) w in
     let w2 := exec autotuneStart w1 in
     gainP (tuneCurrent w2 a) =
       F32.of_Z (uint8 (lrintf (gainP (tuneCurrent w a)))) /\
     gainI (tuneCurrent w2 a) =
       F32.of_Z (uint8 (lrintf (gainI (tuneCurrent w a)))) /\
     gainD (tuneCurrent w2 a) =
       F32.of_Z (uint8 (lrintf (gainD (tuneCurrent w a))))) /\
  F32.of_Z (uint8 (lrintf (F32.lit 399 (-1)))) = F32.of_Z 200 /\
  F32.of_Z 200 <> F32.lit 399 (-1).
Proof.
  split; [|split; [|split; [|split; [|split; [|split]]]]].
  - intros w. cbv zeta.
    rewrite (exec_run _ _ _ _ (autotuneUpdateGains_current_run w)).
    repeat split. intros a; destruct a; reflexivity.
  - intros w. cbv zeta.
    rewrite (exec_run _ _ _ _ (autotuneUpdateGains_saved_run w)).
    repeat split. intros a; destruct a; reflexivity.
  - exact lrintf_error.
  - vm_compute. split; reflexivity.
  - intros w a. cbv zeta.
    rewrite (exec_run _ _ _ _ (autotuneUpdateGains_current_run w)).
    rewrite exec_autotuneStart. destruct a; repeat split.
  - vm_compute. reflexivity.
  - vm_compute. discriminate.
Qed.


(** Desired 100 deg/s against a configured 150 deg/s is below the 75 %
    threshold (112.5 deg/s): the yaw axis is classified too low. *)
Example classification_100_of_150 :
  let w := worldSample (tuneSample DEMAND_UNDERSHOOT 0 false 5 7 50)
                       (Pid8.mk 5 7 50) true 1000 in
  newState cfgSample w FD_YAW (F32.of_Z 100) (F32.of_Z 120) = DEMAND_TOO_LOW /\
  newState cfgSample w FD_YAW (F32.of_Z 50) (F32.of_Z 120) = DEMAND_TOO_LOW /\
  newState cfgSample w FD_YAW (F32.of_Z 120) (F32.of_Z 130)
    = DEMAND_OVERSHOOT.
Proof. vm_compute. repeat split. Qed.

(* ================================================================== *)
(** ** The theorems at concrete flights                                *)
(* ================================================================== *)

Lemma abort_restores_checkpoint_witness :
  false && true = false /\
  flightMode_AUTO_TUNE worldOvershoot = true /\
  pidBank (exec (autotuneUpdateState false true)
             (exec (runCalls cfgSample [callSample FD_YAW 120 100 10])
                   worldOvershoot)) PID_YAW = Pid8.mk 5 7 50.
Proof.
  assert (H1 : false && true = false) by reflexivity.
  assert (H2 : flightMode_AUTO_TUNE worldOvershoot = true) by reflexivity.
  refine (conj H1 (conj H2 _)).
  refine (eq_trans
            (proj1 (abort_restores_checkpoint cfgSample
                      [callSample FD_YAW 120 100 10] worldOvershoot
                      false true H1 H2) FD_YAW) _).
  vm_compute. reflexivity.
Defined.

Lemma session_start_reseeds_witness :
  true && true = true /\
  flightMode_AUTO_TUNE worldIdle = false /\
  tuneSaved (exec (autotuneUpdateState true true) worldIdle) =
  tuneCurrent (exec (autotuneUpdateState true true) worldIdle) /\
  flightMode_AUTO_TUNE (exec (autotuneUpdateState true true) worldIdle)
  = true.
Proof.
  assert (H1 : true && true = true) by reflexivity.
  assert (H2 : flightMode_AUTO_TUNE worldIdle = false) by reflexivity.
  refine (conj H1 (conj H2 _)).
  pose proof (session_start_reseeds worldIdle true true H1 H2) as H.
  exact (conj (proj1 (proj2 H)) (proj1 (proj2 (proj2 H)))).
Defined.

Lemma overshoot_exit_decreases_gainD_witness :
  state (tuneCurrent worldOvershoot FD_YAW) = DEMAND_OVERSHOOT /\
  newState cfgSample worldOvershoot FD_YAW (F32.of_Z 120) (F32.of_Z 100)
    <> DEMAND_OVERSHOOT /\
  AUTOTUNE_FIXED_WING_OVERSHOOT_TIME <= stateTimeMs worldOvershoot FD_YAW /\
  gainD (tuneCurrent
           (exec (autotuneFixedWingUpdate cfgSample FD_YAW (F32.of_Z 120)
                    (F32.of_Z 100) (F32.of_Z 10)) worldOvershoot) FD_YAW)
  = F32.of_Z 46.
Proof.
  assert (H1 : state (tuneCurrent worldOvershoot FD_YAW) = DEMAND_OVERSHOOT)
    by reflexivity.
  assert (H2 : newState cfgSample worldOvershoot FD_YAW (F32.of_Z 120)
                 (F32.of_Z 100) <> DEMAND_OVERSHOOT)
    by (vm_compute; discriminate).
  assert (H3 : AUTOTUNE_FIXED_WING_OVERSHOOT_TIME
               <= stateTimeMs worldOvershoot FD_YAW)
    by (vm_compute; discriminate).
  refine (conj H1 (conj H2 (conj H3 _))).
  refine (eq_trans
            (proj1 (overshoot_exit_decreases_gainD cfgSample worldOvershoot
                      FD_YAW (F32.of_Z 120) (F32.of_Z 100) (F32.of_Z 10)
                      H1 H2) H3) _).
  vm_compute. reflexivity.
Defined.

Lemma undershoot_exit_increases_gainD_witness :
  state (tuneCurrent worldUndershoot FD_YAW) = DEMAND_UNDERSHOOT /\
  newState cfgSample worldUndershoot FD_YAW (F32.of_Z 120) (F32.of_Z 130)
    <> DEMAND_UNDERSHOOT /\
  AUTOTUNE_FIXED_WING_UNDERSHOOT_TIME <= stateTimeMs worldUndershoot FD_YAW /\
  saturatedNow cfgSample worldUndershoot FD_YAW (F32.of_Z 10) = false /\
  gainD (tuneCurrent
           (exec (autotuneFixedWingUpdate cfgSample FD_YAW (F32.of_Z 120)
                    (F32.of_Z 130) (F32.of_Z 10)) worldUndershoot) FD_YAW)
  = F32.lit 399 (-1).
Proof.
  assert (H1 : state (tuneCurrent worldUndershoot FD_YAW) = DEMAND_UNDERSHOOT)
    by reflexivity.
  assert (H2 : newState cfgSample worldUndershoot FD_YAW (F32.of_Z 120)
                 (F32.of_Z 130) <> DEMAND_UNDERSHOOT)
    by (vm_compute; discriminate).
  assert (H3 : AUTOTUNE_FIXED_WING_UNDERSHOOT_TIME
               <= stateTimeMs worldUndershoot FD_YAW)
    by (vm_compute; discriminate).
  assert (H4 : saturatedNow cfgSample worldUndershoot FD_YAW (F32.of_Z 10)
               = false)
    by (vm_compute; reflexivity).
  refine (conj H1 (conj H2 (conj H3 (conj H4 _)))).
  refine (eq_trans
            (proj1 (undershoot_exit_increases_gainD cfgSample worldUndershoot
                      FD_YAW (F32.of_Z 120) (F32.of_Z 130) (F32.of_Z 10)
                      H1 H2) H3 H4) _).
  vm_compute. reflexivity.
Defined.

Lemma dwell_damping_witness :
  damped cfgSample callsOscillating worldOscillating = true /\
  (forall b, sameGains (tuneCurrent worldOscillating b)
               (tuneCurrent (exec (runCalls cfgSample callsOscillating)
                                  worldOscillating) b)) /\
  state (tuneCurrent (exec (runCalls cfgSample callsOscillating)
                           worldOscillating) FD_YAW) = DEMAND_OVERSHOOT.
Proof.
  assert (H1 : damped cfgSample callsOscillating worldOscillating = true)
    by (vm_compute; reflexivity).
  refine (conj H1 (conj _ _)).
  - exact (proj1 (dwell_damping cfgSample callsOscillating worldOscillating
                    H1)).
  - vm_compute. reflexivity.
Defined.

Lemma stepped_gains_are_clamped_witness :
  gainsUpdated cfgSample worldOvershoot FD_YAW (F32.of_Z 120) (F32.of_Z 100)
               (F32.of_Z 10) = true /\
  F32.is_nan (gainD (tuneCurrent worldOvershoot FD_YAW)) = false /\
  finite_nonzero (FP_PID_RATE_FF_MULTIPLIER cfgSample) = true /\
  finite_nonzero (FP_PID_RATE_I_MULTIPLIER cfgSample) = true /\
  F32.leb (F32.of_Z AUTOTUNE_FIXED_WING_MIN_FF)
    (gainD (tuneCurrent
              (exec (autotuneFixedWingUpdate cfgSample FD_YAW (F32.of_Z 120)
                       (F32.of_Z 100) (F32.of_Z 10)) worldOvershoot) FD_YAW))
  = true.
Proof.
  assert (H1 : gainsUpdated cfgSample worldOvershoot FD_YAW (F32.of_Z 120)
                 (F32.of_Z 100) (F32.of_Z 10) = true)
    by (vm_compute; reflexivity).
  assert (H2 : F32.is_nan (gainD (tuneCurrent worldOvershoot FD_YAW)) = false)
    by reflexivity.
  assert (H3 : finite_nonzero (FP_PID_RATE_FF_MULTIPLIER cfgSample) = true)
    by reflexivity.
  assert (H4 : finite_nonzero (FP_PID_RATE_I_MULTIPLIER cfgSample) = true)
    by reflexivity.
  refine (conj H1 (conj H2 (conj H3 (conj H4 _)))).
  exact (proj1 (stepped_gains_are_clamped cfgSample worldOvershoot FD_YAW
                  (F32.of_Z 120) (F32.of_Z 100) (F32.of_Z 10) H1 H2 H3 H4)
               eq_refl).
Defined.


(* ================================================================== *)
(** ** Further properties of the session controller                    *)
(* ================================================================== *)

Lemma uint32_elapsed (t elapsed : Z) :
  0 <= elapsed < 2 ^ 32 -> uint32 (uint32 (t + elapsed) - t) = elapsed.
Proof.
  intros H. unfold uint32. rewrite Zminus_mod_idemp_l.
  replace (t + elapsed - t) with elapsed by lia. apply Z.mod_small, H.
Qed.

Lemma int32_elapsed (t elapsed : Z) :
  0 <= elapsed < 2 ^ 31 -> int32 (uint32 (t + elapsed) - t) = elapsed.
Proof.
  intros H. unfold int32, uint32. rewrite Zminus_mod_idemp_l.
  replace (t + elapsed - t) with elapsed by lia.
  rewrite Z.mod_small by lia.
  destruct (elapsed <? 2 ^ 31) eqn:E; [reflexivity|].
  apply Z.ltb_ge in E. lia.
Qed.

(** The commit scheduler measures the time since the last commit
    correctly when the millisecond counter has wrapped in between: with
    [elapsed] real milliseconds since [lastGainsUpdateTime], it fires
    exactly when [elapsed] is at least 5000. *)
Theorem commit_timing_survives_wraparound (w : world) (elapsed : Z) :
  0 <= elapsed < 2 ^ 32 ->
  sysTime w (millisCalls w) = lastGainsUpdateTime w + elapsed ->
  let w' := exec autotuneCheckUpdateGains w in
  (elapsed < AUTOTUNE_SAVE_PERIOD ->
   w' = set_millisCalls (S (millisCalls w)) w) /\
  (AUTOTUNE_SAVE_PERIOD <= elapsed ->
   tuneSaved w' = tuneCurrent w /\
   pidGainsUpdates w' = S (pidGainsUpdates w) /\
   lastGainsUpdateTime w' = uint32 (lastGainsUpdateTime w + elapsed)).
Proof.
  intros He Hclk. cbv zeta. rewrite exec_autotuneCheckUpdateGains.
  unfold checkEffect, currentTime. rewrite Hclk, uint32_elapsed by exact He.
  split; intros Hcmp.
  - apply Z.ltb_lt in Hcmp. rewrite Hcmp. reflexivity.
  - apply Z.ltb_ge in Hcmp. rewrite Hcmp. effect_fields.
    repeat split; reflexivity.
Qed.

Lemma commit_timing_survives_wraparound_witness :
  0 <= 6000 < 2 ^ 32 /\
  sysTime (set_lastGainsUpdateTime (2 ^ 32 - 1000)
             (worldSample (tuneSample DEMAND_TOO_LOW 0 false 5 7 50)
                          (Pid8.mk 5 7 50) true (2 ^ 32 + 5000)))
          0%nat = (2 ^ 32 - 1000) + 6000 /\
  lastGainsUpdateTime
    (exec autotuneCheckUpdateGains
       (set_lastGainsUpdateTime (2 ^ 32 - 1000)
          (worldSample (tuneSample DEMAND_TOO_LOW 0 false 5 7 50)
                       (Pid8.mk 5 7 50) true (2 ^ 32 + 5000)))) = 5000.
Proof.
  assert (H1 : 0 <= 6000 < 2 ^ 32) by lia.
  assert (H2 : sysTime (set_lastGainsUpdateTime (2 ^ 32 - 1000)
                 (worldSample (tuneSample DEMAND_TOO_LOW 0 false 5 7 50)
                    (Pid8.mk 5 7 50) true (2 ^ 32 + 5000))) 0%nat
               = (2 ^ 32 - 1000) + 6000) by reflexivity.
  refine (conj H1 (conj H2 _)).
  refine (eq_trans
    (proj2 (proj2 (proj2 (commit_timing_survives_wraparound _ 6000 H1 H2)
                     ltac:(unfold AUTOTUNE_SAVE_PERIOD; lia)))) _).
  vm_compute. reflexivity.
Defined.

(** The dwell of a regime is measured correctly across a wrap of the
    millisecond counter, for any real dwell below 2^31 ms; leaving
    overshoot then steps the gain exactly when that dwell is at least
    100 ms. *)
Theorem dwell_survives_wraparound (cfg : config) (w : world)
    (axis : flight_dynamics_index_t) (d r o : F32.float) (elapsed : Z) :
  0 <= elapsed < 2 ^ 31 ->
  sysTime w (millisCalls w) = stateEnterTime (tuneCurrent w axis) + elapsed ->
  stateTimeMs w axis = elapsed /\
  (state (tuneCurrent w axis) = DEMAND_OVERSHOOT ->
   newState cfg w axis d r <> DEMAND_OVERSHOOT ->
   gainsUpdated cfg w axis d r o
   = (elapsed >=? AUTOTUNE_FIXED_WING_OVERSHOOT_TIME)).
Proof.
  intros He Hclk.
  assert (Hdw : stateTimeMs w axis = elapsed).
  { unfold stateTimeMs, currentTime. rewrite Hclk. apply int32_elapsed, He. }
  split; [exact Hdw|]. intros Hst Hns.
  unfold gainsUpdated. rewrite Hst, Hdw.
  replace (regimeChanged cfg w axis d r) with true; [reflexivity|].
  symmetry. apply regimeChanged_iff. congruence.
Qed.

Lemma dwell_survives_wraparound_witness :
  0 <= 150 < 2 ^ 31 /\
  sysTime (worldSample (tuneSample DEMAND_OVERSHOOT (2 ^ 32 - 50) false 5 7 50)
                       (Pid8.mk 5 7 50) true (2 ^ 32 + 100)) 0%nat
  = (2 ^ 32 - 50) + 150 /\
  stateTimeMs (worldSample
                 (tuneSample DEMAND_OVERSHOOT (2 ^ 32 - 50) false 5 7 50)
                 (Pid8.mk 5 7 50) true (2 ^ 32 + 100)) FD_YAW = 150.
Proof.
  assert (H1 : 0 <= 150 < 2 ^ 31) by lia.
  assert (H2 : sysTime (worldSample
                 (tuneSample DEMAND_OVERSHOOT (2 ^ 32 - 50) false 5 7 50)
                 (Pid8.mk 5 7 50) true (2 ^ 32 + 100)) 0%nat
               = (2 ^ 32 - 50) + 150) by reflexivity.
  refine (conj H1 (conj H2 _)).
  exact (proj1 (dwell_survives_wraparound cfgSample
                  (worldSample
                     (tuneSample DEMAND_OVERSHOOT (2 ^ 32 - 50) false 5 7 50)
                     (Pid8.mk 5 7 50) true (2 ^ 32 + 100))
                  FD_YAW (F32.of_Z 120) (F32.of_Z 100) (F32.of_Z 10) 150
                  H1 H2)).
Defined.

(** With autotune not requested or the craft disarmed, the session
    update is the identity on a world without a session, so calling it a
    second time changes nothing. *)
Theorem session_update_off_is_idempotent (w : world)
    (rcModeAutotune armed : bool) :
  rcModeAutotune && armed = false ->
  (flightMode_AUTO_TUNE w = false ->
   exec (autotuneUpdateState rcModeAutotune armed) w = w) /\
  exec (autotuneUpdateState rcModeAutotune armed)
       (exec (autotuneUpdateState rcModeAutotune armed) w)
  = exec (autotuneUpdateState rcModeAutotune armed) w.
Proof.
  intros Hoff.
  assert (Hid : forall w0, flightMode_AUTO_TUNE w0 = false ->
            exec (autotuneUpdateState rcModeAutotune armed) w0 = w0).
  { intros w0 Hf. rewrite exec_autotuneUpdateState. unfold updateStateEffect.
    rewrite Hoff, Hf. destruct w0. cbn in Hf. subst. reflexivity. }
  split; [apply Hid|]. apply Hid.
  rewrite exec_autotuneUpdateState. unfold updateStateEffect. rewrite Hoff.
  reflexivity.
Qed.

Lemma session_update_off_is_idempotent_witness :
  true && false = false /\
  exec (autotuneUpdateState true false)
       (exec (autotuneUpdateState true false) worldOvershoot)
  = exec (autotuneUpdateState true false) worldOvershoot.
Proof.
  assert (H1 : true && false = false) by reflexivity.
  exact (conj H1 (proj2 (session_update_off_is_idempotent worldOvershoot
                           true false H1))).
Defined.

(** After every session update the flight-mode flag says exactly whether
    autotune is requested and the craft is armed. *)
Theorem flight_mode_mirrors_request (w : world)
    (rcModeAutotune armed : bool) :
  flightMode_AUTO_TUNE (exec (autotuneUpdateState rcModeAutotune armed) w)
  = rcModeAutotune && armed.
Proof.
  rewrite exec_autotuneUpdateState. unfold updateStateEffect.
  destruct (rcModeAutotune && armed); [|reflexivity].
  destruct (flightMode_AUTO_TUNE w) eqn:Hf; [|reflexivity].
  unfold checkEffect.
  destruct (uint32 (currentTime w - lastGainsUpdateTime w)
            <? AUTOTUNE_SAVE_PERIOD); effect_fields; exact Hf.
Qed.

Lemma appliedGains_seededAxis g t :
  fitsBank g -> appliedGains (seededAxis g t) = g.
Proof.
  intros (HP & HI & HD). destruct g as [p i d]. cbn in HP, HI, HD.
  unfold appliedGains, seededAxis. effect_fields. cbn [Pid8.P Pid8.I Pid8.D].
  rewrite !lrintf_of_Z_uint8, !uint8_small by assumption. reflexivity.
Qed.

(** A session that is aborted before its first commit gives the
    controller back the gains it had when the session started, whatever
    the tuning law pushed in between and whichever way the session ends:
    the switch released, disarming, or both. *)
Theorem abort_before_commit_restores_bank (cfg : config)
    (cs : list axisCall) (w : world) (rcModeAutotune armed : bool) :
  flightMode_AUTO_TUNE w = false ->
  (forall axis, fitsBank (pidBank w (pidOfAxis axis))) ->
  rcModeAutotune && armed = false ->
  let w1 := exec (autotuneUpdateState true true) w in
  let w2 := exec (runCalls cfg cs) w1 in
  let w3 := exec (autotuneUpdateState rcModeAutotune armed) w2 in
  pidBank w3 = pidBank w /\ flightMode_AUTO_TUNE w3 = false.
Proof.
  intros Hoff Hfit Hend. cbv zeta.
  set (w1 := exec (autotuneUpdateState true true) w).
  destruct (runCalls_frame cfg cs w1) as (Hs & _ & Hf & Hl).
  rewrite (exec_autotuneUpdateState rcModeAutotune armed).
  unfold updateStateEffect. rewrite Hend, Hf.
  assert (Hw1 : w1 = set_flightMode_AUTO_TUNE true (startEffect w)).
  { unfold w1. rewrite exec_autotuneUpdateState. unfold updateStateEffect.
    cbn [andb]. rewrite Hoff. reflexivity. }
  rewrite Hw1 at 1. effect_fields. split; [|reflexivity].
  unfold gainsApplied. effect_fields. rewrite Hs, Hl, Hw1.
  unfold startEffect. effect_fields. cbn [nth_axis at_roll at_pitch at_yaw].
  rewrite !appliedGains_seededAxis.
  - destruct (pidBank w). reflexivity.
  - apply (Hfit FD_YAW).
  - apply (Hfit FD_PITCH).
  - apply (Hfit FD_ROLL).
Qed.

Lemma abort_before_commit_restores_bank_witness :
  flightMode_AUTO_TUNE worldIdle = false /\
  (forall axis, fitsBank (pidBank worldIdle (pidOfAxis axis))) /\
  true && false = false /\
  pidBank (exec (autotuneUpdateState true false)
             (exec (runCalls cfgSample callsOscillating)
                (exec (autotuneUpdateState true true) worldIdle)))
  = pidBank worldIdle.
Proof.
  assert (H1 : flightMode_AUTO_TUNE worldIdle = false) by reflexivity.
  assert (H2 : forall axis, fitsBank (pidBank worldIdle (pidOfAxis axis)))
    by (intros axis; destruct axis; vm_compute; repeat split; discriminate).
  assert (H3 : true && false = false) by reflexivity.
  exact (conj H1 (conj H2 (conj H3
    (proj1 (abort_before_commit_restores_bank cfgSample callsOscillating
              worldIdle true false H1 H2 H3))))).
Defined.

(** After a commit has fired, an abort gives the controller exactly what
    that commit wrote, whatever the tuning law pushed in between. *)
Theorem abort_after_commit_restores_commit (cfg : config)
    (cs : list axisCall) (w : world) (rcModeAutotune armed : bool) :
  flightMode_AUTO_TUNE w = true ->
  AUTOTUNE_SAVE_PERIOD <= uint32 (currentTime w - lastGainsUpdateTime w) ->
  rcModeAutotune && armed = false ->
  let w1 := exec (autotuneUpdateState true true) w in
  let w2 := exec (runCalls cfg cs) w1 in
  let w3 := exec (autotuneUpdateState rcModeAutotune armed) w2 in
  tuneSaved w1 = tuneCurrent w /\
  pidBank w3 = pidBank w1.
Proof.
  intros Hon Hel Hoff. cbv zeta.
  set (w1 := exec (autotuneUpdateState true true) w).
  destruct (runCalls_frame cfg cs w1) as (Hs & _ & Hf & Hl).
  assert (Hw1 : w1 = set_lastGainsUpdateTime (currentTime w)
                       (gainsApplied (tuneCurrent w)
                          (set_tuneSaved (tuneCurrent w)
                             (set_millisCalls (S (millisCalls w)) w)))).
  { unfold w1. rewrite exec_autotuneUpdateState. unfold updateStateEffect.
    cbn [andb]. rewrite Hon. unfold checkEffect.
    apply Z.ltb_ge in Hel. rewrite Hel. reflexivity. }
  split; [rewrite Hw1; reflexivity|].
  rewrite exec_autotuneUpdateState. unfold updateStateEffect.
  rewrite Hoff, Hf. replace (flightMode_AUTO_TUNE w1) with true
    by (rewrite Hw1; effect_fields; congruence).
  effect_fields. rewrite Hs, Hl.
  rewrite Hw1. effect_fields. reflexivity.
Qed.

Lemma abort_after_commit_restores_commit_witness :
  flightMode_AUTO_TUNE (worldSample
     (tuneSample DEMAND_OVERSHOOT 5900 false 5 7 50) (Pid8.mk 9 9 9) true 6000)
  = true /\
  AUTOTUNE_SAVE_PERIOD <= uint32 (currentTime (worldSample
     (tuneSample DEMAND_OVERSHOOT 5900 false 5 7 50) (Pid8.mk 9 9 9) true 6000)
     - lastGainsUpdateTime (worldSample
     (tuneSample DEMAND_OVERSHOOT 5900 false 5 7 50) (Pid8.mk 9 9 9) true
     6000)) /\
  false && true = false /\
  pidBank (exec (autotuneUpdateState false true)
            (exec (runCalls cfgSample [callSample FD_YAW 120 100 10])
              (exec (autotuneUpdateState true true)
                 (worldSample (tuneSample DEMAND_OVERSHOOT 5900 false 5 7 50)
                              (Pid8.mk 9 9 9) true 6000)))) PID_YAW
  = Pid8.mk 5 7 50.
Proof.
  assert (H1 : flightMode_AUTO_TUNE (worldSample
     (tuneSample DEMAND_OVERSHOOT 5900 false 5 7 50) (Pid8.mk 9 9 9) true 6000)
     = true) by reflexivity.
  assert (H2 : AUTOTUNE_SAVE_PERIOD <= uint32 (currentTime (worldSample
     (tuneSample DEMAND_OVERSHOOT 5900 false 5 7 50) (Pid8.mk 9 9 9) true 6000)
     - lastGainsUpdateTime (worldSample
     (tuneSample DEMAND_OVERSHOOT 5900 false 5 7 50) (Pid8.mk 9 9 9) true
     6000))) by (vm_compute; discriminate).
  assert (H3 : false && true = false) by reflexivity.
  refine (conj H1 (conj H2 (conj H3 _))).
  refine (eq_trans (f_equal (fun b => pid_at b PID_YAW)
    (proj2 (abort_after_commit_restores_commit cfgSample
              [callSample FD_YAW 120 100 10] _ false true H1 H2 H3))) _).
  vm_compute. reflexivity.
Defined.

(** A session that has just started does not commit before 5000 ms have
    passed since the time it stored at the start. *)
Theorem no_commit_right_after_start (w : world) :
  flightMode_AUTO_TUNE w = false ->
  let w1 := exec (autotuneUpdateState true true) w in
  uint32 (currentTime w1 - clockAt w 3) < AUTOTUNE_SAVE_PERIOD ->
  exec (autotuneUpdateState true true) w1
  = set_millisCalls (S (millisCalls w1)) w1.
Proof.
  intros Hoff. cbv zeta.
  set (w1 := exec (autotuneUpdateState true true) w).
  assert (Hw1 : w1 = set_flightMode_AUTO_TUNE true (startEffect w)).
  { unfold w1. rewrite exec_autotuneUpdateState. unfold updateStateEffect.
    cbn [andb]. rewrite Hoff. reflexivity. }
  assert (Hf : flightMode_AUTO_TUNE w1 = true) by (rewrite Hw1; reflexivity).
  assert (Hl : lastGainsUpdateTime w1 = clockAt w 3)
    by (rewrite Hw1; reflexivity).
  intros Hlt. rewrite exec_autotuneUpdateState. unfold updateStateEffect.
  cbn [andb]. rewrite Hf. unfold checkEffect. rewrite Hl.
  apply Z.ltb_lt in Hlt. rewrite Hlt. reflexivity.
Qed.

Lemma no_commit_right_after_start_witness :
  flightMode_AUTO_TUNE worldIdle = false /\
  uint32 (currentTime (exec (autotuneUpdateState true true) worldIdle)
          - clockAt worldIdle 3) < AUTOTUNE_SAVE_PERIOD /\
  pidGainsUpdates (exec (autotuneUpdateState true true)
                     (exec (autotuneUpdateState true true) worldIdle))
  = 0%nat.
Proof.
  assert (H1 : flightMode_AUTO_TUNE worldIdle = false) by reflexivity.
  assert (H2 : uint32 (currentTime (exec (autotuneUpdateState true true)
                                         worldIdle)
                       - clockAt worldIdle 3) < AUTOTUNE_SAVE_PERIOD)
    by (vm_compute; reflexivity).
  refine (conj H1 (conj H2 _)).
  rewrite (no_commit_right_after_start worldIdle H1 H2).
  vm_compute. reflexivity.
Defined.

(* ================================================================== *)
(** ** Further properties of the per-axis law                          *)
(* ================================================================== *)

(** A per-axis update works on its own axis only: the tuning state of
    the other axes, the checkpoint, the commit time, the flight mode and
    the attitude slot of the bank are as before, and the clock has been
    read once. *)
Theorem axis_update_is_axis_local (cfg : config) (w : world)
    (axis : flight_dynamics_index_t) (d r o : F32.float) :
  let w' := exec (autotuneFixedWingUpdate cfg axis d r o) w in
  (forall b, b <> axis -> tuneCurrent w' b = tuneCurrent w b) /\
  tuneSaved w' = tuneSaved w /\
  lastGainsUpdateTime w' = lastGainsUpdateTime w /\
  flightMode_AUTO_TUNE w' = flightMode_AUTO_TUNE w /\
  pidBank w' PID_LEVEL = pidBank w PID_LEVEL /\
  millisCalls w' = S (millisCalls w).
Proof.
  cbv zeta. rewrite exec_autotuneFixedWingUpdate.
  destruct (fw_frame cfg axis d r o w) as (F1 & F2 & F3 & F4 & F5 & F6).
  repeat split; try assumption.
  intros b Hb. apply fw_other_axis. congruence.
Qed.

Lemma geb_nan_l x y : F32.is_nan x = true -> F32.geb x y = false.
Proof. destruct x; try discriminate. destruct y; reflexivity. Qed.

Lemma fabsf_nan x : F32.is_nan x = true -> F32.is_nan (fabsf x) = true.
Proof. destruct x; try discriminate. reflexivity. Qed.

(** While the regime holds, a call changes nothing of the axis but the
    saturation flag, which it sets when the output is at the limit and
    never clears; an output that is not a number does not set it. *)
Theorem saturation_flag_is_sticky (cfg : config) (w : world)
    (axis : flight_dynamics_index_t) (d r o : F32.float) :
  newState cfg w axis d r = state (tuneCurrent w axis) ->
  let old := tuneCurrent w axis in
  let new := tuneCurrent (exec (autotuneFixedWingUpdate cfg axis d r o) w)
                         axis in
  new = set_pidSaturated
          ((fabsf o >=? F32.of_Z (pidSumLimit cfg))%f32 || pidSaturated old)
          old /\
  (pidSaturated old = true -> pidSaturated new = true) /\
  ((fabsf o >=? F32.of_Z (pidSumLimit cfg))%f32 = true ->
   pidSaturated new = true) /\
  (F32.is_nan o = true -> new = old).
Proof.
  intros Hsame. cbv zeta. rewrite exec_autotuneFixedWingUpdate, fw_axis.
  cbv zeta.
  assert (Hc : regimeChanged cfg w axis d r = false).
  { unfold regimeChanged. apply negb_false_iff, pidAutotuneState_eqb_eq.
    exact Hsame. }
  rewrite Hc. unfold saturatedNow. repeat split.
  - intros Hs. rewrite Hs, orb_true_r. reflexivity.
  - intros Hs. rewrite Hs. reflexivity.
  - intros Hn. rewrite (geb_nan_l _ _ (fabsf_nan _ Hn)). cbn [orb].
    destruct (tuneCurrent w axis). reflexivity.
Qed.

Lemma saturation_flag_is_sticky_witness :
  newState cfgSample worldOvershoot FD_YAW (F32.of_Z 120) (F32.of_Z 130)
  = state (tuneCurrent worldOvershoot FD_YAW) /\
  pidSaturated
    (tuneCurrent (exec (autotuneFixedWingUpdate cfgSample FD_YAW
                          (F32.of_Z 120) (F32.of_Z 130) (F32.of_Z 500))
                       worldOvershoot) FD_YAW) = true.
Proof.
  assert (H1 : newState cfgSample worldOvershoot FD_YAW (F32.of_Z 120)
                 (F32.of_Z 130) = state (tuneCurrent worldOvershoot FD_YAW))
    by (vm_compute; reflexivity).
  refine (conj H1 _).
  refine (proj1 (proj2 (proj2 (saturation_flag_is_sticky cfgSample
            worldOvershoot FD_YAW (F32.of_Z 120) (F32.of_Z 130)
            (F32.of_Z 500) H1))) _).
  vm_compute. reflexivity.
Defined.

(** A desired rate that is not a number is classified as undershoot,
    whatever was reached; a reached rate that is not a number is never
    classified as overshoot. *)
Theorem nan_rates_classification (cfg : config) (w : world)
    (axis : flight_dynamics_index_t) (d r o : F32.float) :
  (F32.is_nan d = true ->
   state (tuneCurrent (exec (autotuneFixedWingUpdate cfg axis d r o) w) axis)
   = DEMAND_UNDERSHOOT) /\
  (F32.is_nan r = true ->
   state (tuneCurrent (exec (autotuneFixedWingUpdate cfg axis d r o) w) axis)
   <> DEMAND_OVERSHOOT).
Proof.
  assert (Hstate :
    state (tuneCurrent (exec (autotuneFixedWingUpdate cfg axis d r o) w) axis)
    = newState cfg w axis d r).
  { rewrite exec_autotuneFixedWingUpdate, fw_axis. cbv zeta.
    destruct (regimeChanged cfg w axis d r) eqn:Hc; [reflexivity|].
    unfold regimeChanged in Hc. apply negb_false_iff in Hc.
    apply pidAutotuneState_eqb_eq in Hc. effect_fields. congruence. }
  rewrite Hstate. unfold newState. split; intros Hn.
  - rewrite (ltb_nan_l _ _ (fabsf_nan _ Hn)).
    change (fabsf r >? fabsf d)%f32 with (F32.ltb (fabsf d) (fabsf r)).
    rewrite (ltb_nan_l _ _ (fabsf_nan _ Hn)). reflexivity.
  - change (fabsf r >? fabsf d)%f32 with (F32.ltb (fabsf d) (fabsf r)).
    rewrite (ltb_nan_r _ _ (fabsf_nan _ Hn)).
    destruct (F32.ltb _ _); discriminate.
Qed.

Lemma fabsf_not_below_zero x s : F32.ltb (fabsf x) (S754_zero s) = false.
Proof. destruct x as [|[]| |]; reflexivity. Qed.

(** Rounding keeps the sign it is given. *)
Lemma binary_round_aux_shape s m e l :
  match binary_round_aux F32.prec F32.emax s m e l with
  | S754_zero s' | S754_infinity s' | S754_finite s' _ _ => s' = s
  | S754_nan => True
  end.
Proof.
  unfold binary_round_aux.
  destruct (shr_fexp F32.prec F32.emax m e l) as [mrs' e'].
  destruct (shr_fexp F32.prec F32.emax _ e' loc_Exact) as [mrs'' e''].
  destruct (shr_m mrs''); try exact I; try reflexivity.
  destruct (e'' <=? F32.emax - F32.prec); reflexivity.
Qed.

Lemma fabsf_not_below_negative x y :
  match y with
  | S754_zero s | S754_infinity s | S754_finite s _ _ => s = true
  | S754_nan => True
  end ->
  F32.ltb (fabsf x) y = false.
Proof.
  destruct y as [s|s| |s m e]; intros H; try subst s;
    destruct x as [|[]| |]; reflexivity.
Qed.

(** Three quarters of a ceiling that is not above zero bound no
    magnitude from above. *)
Lemma fabsf_not_below_scaled x c :
  F32.ltb (S754_zero false) c = false ->
  F32.ltb (fabsf x) (f_0_75 * c)%f32 = false.
Proof.
  destruct c as [s|s| |s m e]; intros Hc.
  - apply fabsf_not_below_zero.
  - destruct s; [|discriminate]. destruct x as [|[]| |]; reflexivity.
  - destruct x; reflexivity.
  - destruct s; [|discriminate]. apply fabsf_not_below_negative.
    unfold F32.mul, SFmul, f_0_75. cbn [xorb].
    apply (binary_round_aux_shape true).
Qed.

(** With a configured rate of zero an axis is never classified as too
    low: every demand counts as a probe. *)
Theorem zero_rate_is_never_too_low (cfg : config) (w : world)
    (axis : flight_dynamics_index_t) (d r o : F32.float) :
  rates cfg axis = 0 ->
  state (tuneCurrent (exec (autotuneFixedWingUpdate cfg axis d r o) w)
                     axis) <> DEMAND_TOO_LOW.
Proof.
  intros Hz.
  assert (Hstate :
    state (tuneCurrent (exec (autotuneFixedWingUpdate cfg axis d r o) w)
                       axis) = newState cfg w axis d r).
  { rewrite exec_autotuneFixedWingUpdate, fw_axis. cbv zeta.
    destruct (regimeChanged cfg w axis d r) eqn:Hc; [reflexivity|].
    unfold regimeChanged in Hc. apply negb_false_iff in Hc.
    apply pidAutotuneState_eqb_eq in Hc. effect_fields. congruence. }
  rewrite Hstate. unfold newState.
  assert (Hlow : (fabsf d <? f_0_75 * maxDesiredRate cfg w axis)%f32 = false).
  { unfold maxDesiredRate, configuredMaxRate. rewrite Hz.
    change (F32.of_Z 0 * f_10)%f32 with (S754_zero false).
    assert (Hyaw : (fabsf d <? f_0_75 * S754_zero false)%f32 = false)
      by apply fabsf_not_below_zero.
    destruct axis; try exact Hyaw; unfold MIN;
      match goal with
      | |- context [if ?c then _ else _] => destruct c eqn:Hmin
      end; try exact Hyaw; apply fabsf_not_below_scaled, Hmin. }
  rewrite Hlow. destruct (F32.gtb _ _); discriminate.
Qed.

Lemma zero_rate_is_never_too_low_witness :
  rates (mkConfig (fun _ => 0) (fun _ => 300) 500 (F32.of_Z 31) (F32.of_Z 4)
                  (F32.lit 13757317 (-21))) FD_ROLL = 0 /\
  state (tuneCurrent
           (exec (autotuneFixedWingUpdate
                    (mkConfig (fun _ => 0) (fun _ => 300) 500 (F32.of_Z 31)
                              (F32.of_Z 4) (F32.lit 13757317 (-21)))
                    FD_ROLL (F32.of_Z 0) (F32.of_Z 0) (F32.of_Z 0))
                 worldOvershoot) FD_ROLL) <> DEMAND_TOO_LOW.
Proof.
  assert (H1 : rates (mkConfig (fun _ => 0) (fun _ => 300) 500 (F32.of_Z 31)
                        (F32.of_Z 4) (F32.lit 13757317 (-21))) FD_ROLL = 0)
    by reflexivity.
  exact (conj H1 (zero_rate_is_never_too_low _ worldOvershoot FD_ROLL
                    (F32.of_Z 0) (F32.of_Z 0) (F32.of_Z 0) H1)).
Defined.

(* ================================================================== *)
(** ** Invariants of whole flights                                     *)
(* ================================================================== *)

Lemma exec_runTicks_cons cfg t ts w :
  exec (runTicks cfg (t :: ts)) w =
  exec (runTicks cfg ts) (exec (runTick cfg t) w).
Proof. reflexivity. Qed.

Lemma exec_runTick cfg t w :
  exec (runTick cfg t) w =
  match t with
  | SessionTick rcModeAutotune armed =>
      updateStateEffect rcModeAutotune armed w
  | AxisTick c =>
      fwEffect cfg (callAxis c) (callDesired c) (callReached c)
               (callOutput c) w
  end.
Proof.
  destruct t; cbn [runTick];
    [apply exec_autotuneUpdateState | apply exec_runCall].
Qed.

(** A property every tick keeps is kept by every flight. *)
Lemma runTicks_invariant cfg (P : world -> Prop) :
  (forall t w, P w -> P (exec (runTick cfg t) w)) ->
  forall ts w, P w -> P (exec (runTicks cfg ts) w).
Proof.
  intros Hstep. induction ts as [|t ts IH]; intros w Hw; [exact Hw|].
  rewrite exec_runTicks_cons. apply IH, Hstep, Hw.
Qed.

Lemma seededAxis_numbers g t : gainsAreNumbers (seededAxis g t).
Proof. repeat split; apply of_Z_not_nan. Qed.

Lemma steppedGainD_not_nan st g :
  F32.is_nan g = false -> F32.is_nan (steppedGainD st g) = false.
Proof.
  destruct st; cbn [steppedGainD];
    auto using fwDecrease_not_nan, fwIncrease_not_nan.
Qed.

Lemma session_tick_keeps_numbers rcModeAutotune armed w :
  (forall a, gainsAreNumbers (tuneCurrent w a) /\
             gainsAreNumbers (tuneSaved w a)) ->
  forall a,
    gainsAreNumbers (tuneCurrent (updateStateEffect rcModeAutotune armed w) a)
    /\ gainsAreNumbers (tuneSaved (updateStateEffect rcModeAutotune armed w) a).
Proof.
  intros Hw a. unfold updateStateEffect.
  destruct (rcModeAutotune && armed).
  - destruct (flightMode_AUTO_TUNE w).
    + unfold checkEffect.
      destruct (uint32 (currentTime w - lastGainsUpdateTime w)
                <? AUTOTUNE_SAVE_PERIOD); effect_fields;
        [apply Hw | split; apply Hw].
    + unfold startEffect. effect_fields.
      destruct a; split; apply seededAxis_numbers.
  - destruct (flightMode_AUTO_TUNE w); effect_fields; apply Hw.
Qed.

Lemma axis_tick_keeps_numbers cfg axis d r o w :
  finite_nonzero (FP_PID_RATE_FF_MULTIPLIER cfg) = true ->
  finite_nonzero (FP_PID_RATE_I_MULTIPLIER cfg) = true ->
  (forall a, gainsAreNumbers (tuneCurrent w a) /\
             gainsAreNumbers (tuneSaved w a)) ->
  forall a,
    gainsAreNumbers (tuneCurrent (fwEffect cfg axis d r o w) a) /\
    gainsAreNumbers (tuneSaved (fwEffect cfg axis d r o w) a).
Proof.
  intros HF HI Hw a.
  destruct (fw_frame cfg axis d r o w) as (Hs & _).
  rewrite Hs. split; [|apply Hw].
  destruct (axis_eq_dec axis a) as [<-|Hne];
    [|rewrite fw_other_axis by exact Hne; apply Hw].
  pose proof (fw_gains cfg axis d r o w) as Hg. cbv zeta in Hg.
  destruct (Hw axis) as ((HnP & HnI & HnD) & _).
  destruct (gainsUpdated cfg w axis d r o).
  - destruct Hg as (HD & HP & HIe).
    assert (HnD' : F32.is_nan (gainD (tuneCurrent (fwEffect cfg axis d r o w)
                                                  axis)) = false)
      by (rewrite HD; apply steppedGainD_not_nan, HnD).
    repeat split.
    + rewrite HP. apply derivedGainP_not_nan, HnD'.
    + rewrite HIe. apply derivedGainI_not_nan; assumption.
    + exact HnD'.
  - destruct Hg as (HP & HIe & HD). repeat split; congruence.
Qed.

(** From the start of a session on, through any flight of session
    updates and per-axis updates, every gain of [tuneCurrent] and of
    [tuneSaved] is a number, provided the two scale factors are finite
    and nonzero. *)
Theorem session_gains_stay_numbers (cfg : config) (ts : list tick)
    (w : world) :
  finite_nonzero (FP_PID_RATE_FF_MULTIPLIER cfg) = true ->
  finite_nonzero (FP_PID_RATE_I_MULTIPLIER cfg) = true ->
  flightMode_AUTO_TUNE w = false ->
  let w' := exec (runTicks cfg (SessionTick true true :: ts)) w in
  forall a, gainsAreNumbers (tuneCurrent w' a) /\
            gainsAreNumbers (tuneSaved w' a).
Proof.
  intros HF HI Hoff. cbv zeta. rewrite exec_runTicks_cons.
  apply (runTicks_invariant cfg
           (fun w => forall a, gainsAreNumbers (tuneCurrent w a) /\
                               gainsAreNumbers (tuneSaved w a))).
  - intros t w0 Hw0. rewrite exec_runTick. destruct t.
    + apply session_tick_keeps_numbers, Hw0.
    + apply axis_tick_keeps_numbers; assumption.
  - rewrite exec_runTick. unfold updateStateEffect. cbn [andb].
    rewrite Hoff. unfold startEffect. effect_fields.
    intros a; destruct a; split; apply seededAxis_numbers.
Qed.

Lemma session_gains_stay_numbers_witness :
  finite_nonzero (FP_PID_RATE_FF_MULTIPLIER cfgSample) = true /\
  finite_nonzero (FP_PID_RATE_I_MULTIPLIER cfgSample) = true /\
  flightMode_AUTO_TUNE worldIdle = false /\
  gainsAreNumbers
    (tuneCurrent
       (exec (runTicks cfgSample
                [SessionTick true true;
                 AxisTick (callSample FD_YAW 120 130 10);
                 SessionTick true true;
                 AxisTick (callSample FD_YAW 120 100 10);
                 SessionTick false true]) worldIdle) FD_YAW).
Proof.
  assert (H1 : finite_nonzero (FP_PID_RATE_FF_MULTIPLIER cfgSample) = true)
    by reflexivity.
  assert (H2 : finite_nonzero (FP_PID_RATE_I_MULTIPLIER cfgSample) = true)
    by reflexivity.
  assert (H3 : flightMode_AUTO_TUNE worldIdle = false) by reflexivity.
  exact (conj H1 (conj H2 (conj H3
    (proj1 (session_gains_stay_numbers cfgSample _ worldIdle H1 H2 H3
              FD_YAW))))).
Defined.

Lemma appliedGains_sameGains t t' :
  sameGains t t' -> appliedGains t' = appliedGains t.
Proof.
  intros (HP & HI & HD). unfold appliedGains. rewrite HP, HI, HD.
  reflexivity.
Qed.

Lemma appliedGains_fits t : fitsBank (appliedGains t).
Proof. repeat split; apply uint8_range. Qed.

Lemma session_tick_keeps_mirror rcModeAutotune armed w :
  bankMirrorsCurrent w ->
  bankMirrorsCurrent (updateStateEffect rcModeAutotune armed w).
Proof.
  intros (Hfit & Hmir). unfold updateStateEffect, bankMirrorsCurrent.
  destruct (rcModeAutotune && armed).
  - destruct (flightMode_AUTO_TUNE w) eqn:Hf.
    + unfold checkEffect.
      destruct (uint32 (currentTime w - lastGainsUpdateTime w)
                <? AUTOTUNE_SAVE_PERIOD); effect_fields.
      * split; [exact Hfit | intros _; apply Hmir; reflexivity].
      * split; [|intros _]; intros a; destruct a;
          try reflexivity; apply appliedGains_fits.
    + unfold startEffect. effect_fields. split; [exact Hfit|].
      intros _ a. destruct a; cbn [nth_axis at_roll at_pitch at_yaw];
        symmetry; apply appliedGains_seededAxis.
      * apply (Hfit FD_ROLL).
      * apply (Hfit FD_PITCH).
      * apply (Hfit FD_YAW).
  - effect_fields. split; [|discriminate].
    destruct (flightMode_AUTO_TUNE w); [|exact Hfit].
    intros a. rewrite gainsApplied_bank. apply appliedGains_fits.
Qed.

Lemma axis_tick_keeps_mirror cfg axis d r o w :
  bankMirrorsCurrent w -> bankMirrorsCurrent (fwEffect cfg axis d r o w).
Proof.
  intros (Hfit & Hmir). unfold bankMirrorsCurrent.
  destruct (fw_frame cfg axis d r o w) as (_ & _ & Hf & _).
  rewrite Hf.
  pose proof (fw_bank cfg axis d r o w) as Hb. cbv zeta in Hb.
  destruct (gainsUpdated cfg w axis d r o) eqn:Hu.
  - destruct Hb as (Hb & _). split; [|intros _; exact Hb].
    intros a. rewrite Hb. apply appliedGains_fits.
  - destruct Hb as (Hb & _). rewrite Hb. split; [exact Hfit|].
    intros Hon a. rewrite (Hmir Hon a). symmetry.
    apply appliedGains_sameGains.
    apply (proj1 (fw_no_update cfg axis d r o w Hu)).
Qed.

(** Through any flight that begins with gains fitting the bank's fields,
    the controller flies the working gains: whenever a session is active
    each rate slot of the bank holds the rounding of [tuneCurrent].  A
    commit therefore only moves the checkpoint; what it writes to the
    bank is already there. *)
Theorem bank_mirrors_working_gains (cfg : config) (ts : list tick)
    (w : world) :
  bankMirrorsCurrent w ->
  let w' := exec (runTicks cfg ts) w in
  bankMirrorsCurrent w' /\
  (flightMode_AUTO_TUNE w' = true ->
   pidBank (exec autotuneCheckUpdateGains w') = pidBank w').
Proof.
  intros Hw. cbv zeta.
  assert (Hinv : bankMirrorsCurrent (exec (runTicks cfg ts) w)).
  { apply (runTicks_invariant cfg bankMirrorsCurrent); [|exact Hw].
    intros t w0 Hw0. rewrite exec_runTick. destruct t.
    - apply session_tick_keeps_mirror, Hw0.
    - apply axis_tick_keeps_mirror, Hw0. }
  split; [exact Hinv|]. intros Hon.
  destruct Hinv as (_ & Hmir). specialize (Hmir Hon).
  rewrite exec_autotuneCheckUpdateGains. unfold checkEffect.
  destruct (uint32 _ <? AUTOTUNE_SAVE_PERIOD); effect_fields; [reflexivity|].
  rewrite <- (Hmir FD_ROLL), <- (Hmir FD_PITCH), <- (Hmir FD_YAW).
  destruct (pidBank (exec (runTicks cfg ts) w)). reflexivity.
Qed.

Lemma bank_mirrors_working_gains_witness :
  bankMirrorsCurrent worldIdle /\
  pidBank (exec (runTicks cfgSample
                   [SessionTick true true;
                    AxisTick (callSample FD_YAW 120 130 10)]) worldIdle)
          PID_YAW
  = appliedGains
      (tuneCurrent (exec (runTicks cfgSample
                            [SessionTick true true;
                             AxisTick (callSample FD_YAW 120 130 10)])
                         worldIdle) FD_YAW).
Proof.
  assert (H1 : bankMirrorsCurrent worldIdle).
  { split; [|discriminate].
    intros axis; destruct axis; vm_compute; repeat split; discriminate. }
  refine (conj H1 _).
  refine (proj2 (proj1 (bank_mirrors_working_gains cfgSample _ worldIdle H1))
                _ FD_YAW).
  vm_compute. reflexivity.
Defined.

Lemma tick_pushes_at_most_once cfg t w :
  (pidGainsUpdates (exec (runTick cfg t) w) <= S (pidGainsUpdates w))%nat /\
  (pidGainsUpdates w <= pidGainsUpdates (exec (runTick cfg t) w))%nat.
Proof.
  rewrite exec_runTick. destruct t as [rc armed|c].
  - unfold updateStateEffect. destruct (rc && armed).
    + destruct (flightMode_AUTO_TUNE w).
      * unfold checkEffect. destruct (uint32 _ <? AUTOTUNE_SAVE_PERIOD);
          effect_fields; lia.
      * unfold startEffect. effect_fields. lia.
    + destruct (flightMode_AUTO_TUNE w); effect_fields; lia.
  - pose proof (fw_bank cfg (callAxis c) (callDesired c) (callReached c)
                        (callOutput c) w) as Hb. cbv zeta in Hb.
    destruct (gainsUpdated _ _ _ _ _ _); destruct Hb as (_ & Hb);
      rewrite Hb; lia.
Qed.

(** No entry point writes the bank more than once per call: over a
    flight the number of gain updates requested from the controller
    grows by at most the number of calls, and never shrinks. *)
Theorem at_most_one_push_per_call (cfg : config) (ts : list tick)
    (w : world) :
  (pidGainsUpdates w <= pidGainsUpdates (exec (runTicks cfg ts) w)
   <= pidGainsUpdates w + length ts)%nat.
Proof.
  revert w. induction ts as [|t ts IH]; intros w.
  - cbn. lia.
  - rewrite exec_runTicks_cons. cbn [length].
    pose proof (tick_pushes_at_most_once cfg t w).
    pose proof (IH (exec (runTick cfg t) w)). lia.
Qed.
(* ================================================================== *)
(** ** Rounding of binary32 arithmetic                                 *)
(* ================================================================== *)

(** What the rounding of the standard library's specification returns,
    by the number of digits of its input; no real numbers are used. *)

Lemma digits2_pos_spec (p : positive) :
  2 ^ (Zpos (digits2_pos p) - 1) <= Zpos p < 2 ^ Zpos (digits2_pos p).
Proof.
  induction p as [p IH | p IH |]; cbn [digits2_pos].
  - rewrite Pos2Z.inj_succ.
    replace (Z.succ (Zpos (digits2_pos p)) - 1)
      with (Z.succ (Zpos (digits2_pos p) - 1)) by lia.
    rewrite !Z.pow_succ_r by lia. lia.
  - rewrite Pos2Z.inj_succ.
    replace (Z.succ (Zpos (digits2_pos p)) - 1)
      with (Z.succ (Zpos (digits2_pos p) - 1)) by lia.
    rewrite !Z.pow_succ_r by lia. lia.
  - cbn. lia.
Qed.

Lemma Zdigits2_spec (m : Z) :
  0 < m -> 0 < Zdigits2 m /\ 2 ^ (Zdigits2 m - 1) <= m < 2 ^ Zdigits2 m.
Proof.
  destruct m as [|p|p]; try lia. intros _. cbn [Zdigits2].
  split; [lia | apply digits2_pos_spec].
Qed.

Lemma Zdigits2_eq (m d : Z) :
  0 < d -> 2 ^ (d - 1) <= m < 2 ^ d -> Zdigits2 m = d.
Proof.
  intros Hd [Hlo Hhi].
  assert (Hm : 0 < m).
  { assert (0 < 2 ^ (d - 1)) by (apply Z.pow_pos_nonneg; lia). lia. }
  destruct (Zdigits2_spec m Hm) as [Hd0 [Hlo0 Hhi0]].
  set (d0 := Zdigits2 m) in *.
  destruct (Z.lt_trichotomy d0 d) as [H | [H | H]]; [exfalso | exact H | exfalso].
  - assert (2 ^ d0 <= 2 ^ (d - 1)) by (apply Z.pow_le_mono_r; lia). lia.
  - assert (2 ^ d <= 2 ^ (d0 - 1)) by (apply Z.pow_le_mono_r; lia). lia.
Qed.

Lemma fexp32 (e : Z) : fexp F32.prec F32.emax e = Z.max (e - 24) (-149).
Proof. reflexivity. Qed.

Lemma shr_1_m (mrs : shr_record) :
  0 <= shr_m mrs -> shr_m (shr_1 mrs) = shr_m mrs / 2.
Proof.
  destruct mrs as [m r s]. destruct m as [|[p|p|]|p]; cbn [shr_m shr_1]; intros H;
    try reflexivity; try lia.
  - rewrite Pos2Z.inj_xI. clear H. Z.to_euclidean_division_equations. lia.
  - rewrite Pos2Z.inj_xO. clear H. Z.to_euclidean_division_equations. lia.
Qed.

Lemma iter_pos_index {A : Type} (f : A -> A) (P : Z -> A -> Prop) :
  (forall k x, 0 <= k -> P k x -> P (k + 1) (f x)) ->
  forall p k x, 0 <= k -> P k x -> P (k + Zpos p) (iter_pos f p x).
Proof.
  intros Hstep. induction p as [p IH | p IH |]; intros k x Hk Hx; cbn [iter_pos].
  - replace (k + Zpos p~1) with (k + 1 + Zpos p + Zpos p) by lia.
    apply IH; [lia|]. apply IH; [lia|]. apply Hstep; assumption.
  - replace (k + Zpos p~0) with (k + Zpos p + Zpos p) by lia.
    apply IH; [lia|]. apply IH; assumption.
  - apply Hstep; assumption.
Qed.

Lemma shr_spec (mrs : shr_record) (e n : Z) :
  0 <= shr_m mrs -> 0 <= n ->
  shr_m (fst (shr mrs e n)) = shr_m mrs / 2 ^ n /\ snd (shr mrs e n) = e + n.
Proof.
  intros Hm Hn. destruct n as [|p|p]; try lia; cbn [shr fst snd].
  - rewrite Z.div_1_r. split; [reflexivity | lia].
  - split; [|reflexivity].
    assert (H : forall k x, 0 <= k -> shr_m x = shr_m mrs / 2 ^ k ->
                shr_m (shr_1 x) = shr_m mrs / 2 ^ (k + 1)).
    { intros k x Hk Hx.
      assert (0 < 2 ^ k) by (apply Z.pow_pos_nonneg; lia).
      rewrite shr_1_m by (rewrite Hx; apply Z.div_pos; lia).
      rewrite Hx, Z.div_div by lia.
      rewrite Z.pow_add_r by lia. reflexivity. }
    pose proof (iter_pos_index shr_1
      (fun k x => shr_m x = shr_m mrs / 2 ^ k) H p 0 mrs ltac:(lia)) as Hp.
    cbn beta in Hp. rewrite Z.div_1_r in Hp. apply (Hp eq_refl).
Qed.

Lemma shr_record_of_loc_m (m : Z) (l : location) :
  shr_m (shr_record_of_loc m l) = m.
Proof. destruct l as [|[]]; reflexivity. Qed.

Lemma round_nearest_even_cases (m : Z) (l : location) :
  round_nearest_even m l = m \/ round_nearest_even m l = m + 1.
Proof. destruct l as [|[]]; cbn; try destruct (Z.even m); auto. Qed.

Lemma renormalized_canonical (s : bool) (r e : Z) :
  0 <= r -> fexp F32.prec F32.emax (Zdigits2 r + e) = e ->
  renormalized s r e = rounded s r e.
Proof.
  intros Hr Hc. unfold renormalized, shr_fexp. rewrite Hc, Z.sub_diag.
  cbn [shr shr_record_of_loc shr_m]. unfold rounded.
  destruct r as [|p|p]; try lia; reflexivity.
Qed.

Lemma renormalized_carry (s : bool) (e : Z) :
  -149 <= e -> renormalized s (2 ^ 24) e = rounded s (2 ^ 23) (e + 1).
Proof.
  intros He. unfold renormalized, shr_fexp.
  change (Zdigits2 (2 ^ 24)) with 25. rewrite fexp32.
  replace (Z.max (25 + e - 24) (-149) - e) with 1 by lia.
  reflexivity.
Qed.

(** First half of [binary_round_aux]: the mantissa is cut down to its
    canonical exponent and rounded, which moves it up by at most one. *)
Lemma binary_round_aux_first (s : bool) (mx ex : Z) (lx : location) :
  0 <= mx ->
  ex <= fexp F32.prec F32.emax (Zdigits2 mx + ex) ->
  exists r,
    let e1 := fexp F32.prec F32.emax (Zdigits2 mx + ex) in
    let q := mx / 2 ^ (e1 - ex) in
    (r = q \/ r = q + 1) /\
    binary_round_aux F32.prec F32.emax s mx ex lx = renormalized s r e1.
Proof.
  intros Hmx Hn.
  set (e1 := fexp F32.prec F32.emax (Zdigits2 mx + ex)) in *.
  unfold binary_round_aux, shr_fexp at 1. fold e1.
  destruct (shr_spec (shr_record_of_loc mx lx) ex (e1 - ex)) as [Hq He];
    [rewrite shr_record_of_loc_m; exact Hmx | lia |].
  rewrite shr_record_of_loc_m in Hq.
  destruct (shr (shr_record_of_loc mx lx) ex (e1 - ex)) as [mrs' e'].
  cbn [fst snd] in Hq, He. replace e' with e1 by lia. clear He e'.
  exists (round_nearest_even (shr_m mrs') (loc_of_shr_record mrs')).
  cbn zeta. split; [|reflexivity].
  rewrite <- Hq. apply round_nearest_even_cases.
Qed.

Lemma binary_round_aux_spec (s : bool) (mx ex : Z) (lx : location) :
  0 <= mx ->
  ex <= fexp F32.prec F32.emax (Zdigits2 mx + ex) ->
  exists r,
    let e1 := fexp F32.prec F32.emax (Zdigits2 mx + ex) in
    let q := mx / 2 ^ (e1 - ex) in
    (r = q \/ r = q + 1) /\
    ((r < 2 ^ 24 /\ fexp F32.prec F32.emax (Zdigits2 r + e1) = e1 /\
      binary_round_aux F32.prec F32.emax s mx ex lx = rounded s r e1)
     \/
     (r = 2 ^ 24 /\
      binary_round_aux F32.prec F32.emax s mx ex lx = rounded s (2 ^ 23) (e1 + 1))).
Proof.
  intros Hmx Hn.
  destruct (binary_round_aux_first s mx ex lx Hmx Hn) as [r [Hr Hbra]].
  cbn zeta in Hr, Hbra. exists r. cbn zeta. split; [exact Hr|].
  rewrite Hbra. clear Hbra.
  set (e1 := fexp F32.prec F32.emax (Zdigits2 mx + ex)) in *.
  set (q := mx / 2 ^ (e1 - ex)) in *.
  assert (Hpow : 0 < 2 ^ (e1 - ex)) by (apply Z.pow_pos_nonneg; lia).
  assert (Hq0 : 0 <= q) by (apply Z.div_pos; lia).
  assert (He1 : e1 = Z.max (Zdigits2 mx + ex - 24) (-149)) by apply fexp32.
  destruct (Z_le_gt_dec (-149) (Zdigits2 mx + ex - 24)) as [HA | HB].
  - (* normal range: the shifted mantissa has 24 digits *)
    assert (He1' : e1 = Zdigits2 mx + ex - 24) by lia.
    assert (Hpos : 0 < mx).
    { destruct mx as [|p|p]; try lia. cbn in He1'. lia. }
    destruct (Zdigits2_spec mx Hpos) as [Hd [Hlo Hhi]].
    set (d := Zdigits2 mx) in *.
    assert (Hq23 : 2 ^ 23 <= q < 2 ^ 24).
    { split.
      - apply Z.div_le_lower_bound; [exact Hpow|].
        rewrite <- Z.pow_add_r by lia.
        replace (e1 - ex + 23) with (d - 1) by lia. exact Hlo.
      - apply Z.div_lt_upper_bound; [exact Hpow|].
        rewrite <- Z.pow_add_r by lia.
        replace (e1 - ex + 24) with d by lia. exact Hhi. }
    destruct (Z_lt_le_dec r (2 ^ 24)) as [Hlt | Hge].
    + left. split; [exact Hlt|].
      assert (Hdr : Zdigits2 r = 24) by (apply Zdigits2_eq; lia).
      assert (Hc : fexp F32.prec F32.emax (Zdigits2 r + e1) = e1)
        by (rewrite fexp32, Hdr; lia).
      split; [exact Hc|]. apply renormalized_canonical; [lia | exact Hc].
    + right. assert (Hr24 : r = 2 ^ 24) by lia. split; [exact Hr24|].
      rewrite Hr24. apply renormalized_carry. lia.
  - (* at the smallest exponent: fewer than 24 digits are left *)
    assert (He1' : e1 = -149) by lia.
    assert (Hq23 : q < 2 ^ 23).
    { apply Z.div_lt_upper_bound; [exact Hpow|].
      destruct (Z.eq_dec mx 0) as [Hz | Hnz].
      - rewrite Hz. apply Z.mul_pos_pos; lia.
      - destruct (Zdigits2_spec mx ltac:(lia)) as [Hd [Hlo Hhi]].
        set (d := Zdigits2 mx) in *.
        rewrite <- Z.pow_add_r by lia.
        assert (2 ^ d <= 2 ^ (e1 - ex + 23)) by (apply Z.pow_le_mono_r; lia).
        lia. }
    left. split; [lia|].
    assert (Hc : fexp F32.prec F32.emax (Zdigits2 r + e1) = e1).
    { rewrite fexp32, He1'.
      destruct (Z.eq_dec r 0) as [Hz | Hnz]; [rewrite Hz; reflexivity|].
      destruct (Zdigits2_spec r ltac:(lia)) as [Hd [Hlo Hhi]].
      set (dr := Zdigits2 r) in *.
      destruct (Z_le_gt_dec dr 24) as [Hle | Hgt]; [lia|].
      assert (2 ^ 24 <= 2 ^ (dr - 1)) by (apply Z.pow_le_mono_r; lia).
      lia. }
    split; [exact Hc|]. apply renormalized_canonical; [lia | exact Hc].
Qed.

Lemma rounded_valid (s : bool) (r e : Z) :
  0 <= r -> fexp F32.prec F32.emax (Zdigits2 r + e) = e ->
  valid_binary F32.prec F32.emax (rounded s r e) = true.
Proof.
  intros Hr Hc. unfold rounded.
  destruct (r =? 0) eqn:Hz; [reflexivity|].
  destruct (e <=? 104) eqn:He; [|reflexivity].
  destruct r as [|p|p]; try discriminate; try lia.
  cbn [Z.to_pos valid_binary]. unfold bounded, canonical_mantissa.
  cbn [Zdigits2] in Hc. rewrite Hc, Z.eqb_refl. exact He.
Qed.

(** Rounding returns a valid float whenever its input mantissa carries at
    least the digits its exponent calls for. *)
Lemma binary_round_aux_valid (s : bool) (mx ex : Z) (lx : location) :
  0 <= mx ->
  ex <= fexp F32.prec F32.emax (Zdigits2 mx + ex) ->
  valid_binary F32.prec F32.emax
    (binary_round_aux F32.prec F32.emax s mx ex lx) = true.
Proof.
  intros Hmx Hn.
  destruct (binary_round_aux_spec s mx ex lx Hmx Hn) as [r [Hr H]].
  cbn zeta in Hr, H.
  set (e1 := fexp F32.prec F32.emax (Zdigits2 mx + ex)) in *.
  assert (He1 : -149 <= e1) by (unfold e1; rewrite fexp32; lia).
  assert (Hq : 0 <= mx / 2 ^ (e1 - ex)).
  { apply Z.div_pos; [lia | apply Z.pow_pos_nonneg; lia]. }
  destruct H as [[_ [Hc ->]] | [_ ->]].
  - apply rounded_valid; [lia | exact Hc].
  - apply rounded_valid; [lia|].
    change (Zdigits2 (2 ^ 23)) with 24. rewrite fexp32. lia.
Qed.

Lemma valid_finite (s : bool) (m : positive) (e : Z) :
  valid_binary F32.prec F32.emax (S754_finite s m e) = true ->
  Z.max (Zdigits2 (Zpos m) + e - 24) (-149) = e /\ e <= 104.
Proof.
  cbn [valid_binary]. unfold bounded, canonical_mantissa.
  rewrite andb_true_iff, Z.eqb_eq, Z.leb_le, fexp32. intros [H1 H2].
  split; [exact H1 | exact H2].
Qed.

Lemma mul_valid (x y : F32.float) :
  valid_binary F32.prec F32.emax x = true ->
  valid_binary F32.prec F32.emax y = true ->
  valid_binary F32.prec F32.emax (F32.mul x y) = true.
Proof.
  destruct x as [sx|sx| |sx mx ex], y as [sy|sy| |sy my ey];
    try reflexivity.
  intros Hx Hy. apply valid_finite in Hx, Hy.
  destruct Hx as [Hx _], Hy as [Hy _].
  unfold F32.mul, SFmul. apply binary_round_aux_valid; [lia|].
  rewrite fexp32.
  destruct (Zdigits2_spec (Zpos mx) ltac:(lia)) as [Hdx [Hlx Hhx]].
  destruct (Zdigits2_spec (Zpos my) ltac:(lia)) as [Hdy [Hly Hhy]].
  destruct (Zdigits2_spec (Zpos (mx * my)) ltac:(lia)) as [Hd [Hl Hh]].
  set (dx := Zdigits2 (Zpos mx)) in *.
  set (dy := Zdigits2 (Zpos my)) in *.
  set (d := Zdigits2 (Zpos (mx * my))) in *.
  assert (Hdd : dx + dy - 1 <= d).
  { destruct (Z_le_gt_dec (dx + dy - 1) d) as [H | H]; [exact H | exfalso].
    assert (H1 : 2 ^ (dx - 1) * 2 ^ (dy - 1) <= Zpos mx * Zpos my)
      by (apply Z.mul_le_mono_nonneg; try apply Z.pow_nonneg; lia).
    rewrite <- Z.pow_add_r in H1 by lia.
    assert (H2 : 2 ^ d <= 2 ^ (dx - 1 + (dy - 1)))
      by (apply Z.pow_le_mono_r; lia).
    rewrite Pos2Z.inj_mul in Hh. lia. }
  lia.
Qed.

Lemma div_eucl_div (a b : Z) : Z.div_eucl a b = (a / b, a mod b).
Proof. unfold Z.div, Z.modulo. destruct (Z.div_eucl a b); reflexivity. Qed.

Lemma div_valid (x y : F32.float) :
  valid_binary F32.prec F32.emax (F32.div x y) = true.
Proof.
  destruct x as [sx|sx| |sx mx ex], y as [sy|sy| |sy my ey];
    try reflexivity.
  unfold F32.div, SFdiv, SFdiv_core_binary.
  rewrite div_eucl_div.
  set (d1 := Zdigits2 (Zpos mx)). set (d2 := Zdigits2 (Zpos my)).
  set (e' := Z.min (fexp F32.prec F32.emax (d1 + ex - (d2 + ey))) (ex - ey)).
  set (sh := ex - ey - e').
  set (m' := match sh with Zpos _ => Z.shiftl (Zpos mx) sh | 0 => Zpos mx
             | Zneg _ => 0 end).
  assert (Hsh : 0 <= sh) by (unfold sh, e'; lia).
  assert (Hm' : m' = Zpos mx * 2 ^ sh).
  { unfold m'. destruct sh as [|p|p]; try lia.
    apply Z.shiftl_mul_pow2. lia. }
  assert (Hpow : 0 < 2 ^ sh) by (apply Z.pow_pos_nonneg; lia).
  assert (Hq : 0 <= m' / Zpos my) by (apply Z.div_pos; lia).
  apply binary_round_aux_valid; [exact Hq|].
  rewrite fexp32.
  destruct (Z_le_gt_dec e' (-149)) as [Hlow | Hhigh]; [lia|].
  assert (He' : e' <= d1 + ex - (d2 + ey) - 24).
  { unfold e' in *. rewrite fexp32 in *. lia. }
  destruct (Zdigits2_spec (Zpos mx) ltac:(lia)) as [Hd1 [Hl1 Hh1]].
  destruct (Zdigits2_spec (Zpos my) ltac:(lia)) as [Hd2 [Hl2 Hh2]].
  fold d1 in Hd1, Hl1, Hh1. fold d2 in Hd2, Hl2, Hh2.
  assert (Hq23 : 2 ^ 23 <= m' / Zpos my).
  { apply Z.div_le_lower_bound; [lia|]. rewrite Hm'.
    assert (H1 : 2 ^ (d1 - 1) * 2 ^ sh <= Zpos mx * 2 ^ sh)
      by (apply Z.mul_le_mono_nonneg_r; lia).
    rewrite <- Z.pow_add_r in H1 by lia.
    assert (H2 : 2 ^ (d2 + 23) <= 2 ^ (d1 - 1 + sh))
      by (apply Z.pow_le_mono_r; unfold sh; lia).
    rewrite Z.pow_add_r in H2 by lia. nia. }
  destruct (Zdigits2_spec (m' / Zpos my) ltac:(lia)) as [Hdq [Hlq Hhq]].
  set (dq := Zdigits2 (m' / Zpos my)) in *.
  destruct (Z_le_gt_dec 24 dq) as [H | H]; [lia | exfalso].
  assert (2 ^ dq <= 2 ^ 23) by (apply Z.pow_le_mono_r; lia). lia.
Qed.

Ltac zlia := Z.to_euclidean_division_equations; lia.

Lemma rounded_finite (s : bool) (r e : Z) :
  0 < r -> e <= 104 -> rounded s r e = S754_finite s (Z.to_pos r) e.
Proof.
  intros Hr He. unfold rounded.
  destruct (Z.eqb_spec r 0); [lia|].
  destruct (Z.leb_spec e 104); [reflexivity | lia].
Qed.

(** Rounding in the normal range: the result is a 24-digit mantissa at
    the exponent that leaves 24 digits, one unit in the last place above
    the truncated input at most. [p2] is the power of two cut off. *)
Lemma binary_round_aux_normal (s : bool) (mx ex : Z) (lx : location)
    (d p2 : Z) :
  24 <= d -> p2 = 2 ^ (d - 24) -> 2 ^ (d - 1) <= mx < 2 ^ d ->
  -149 <= ex + d - 24 < 104 ->
  exists m' e',
    binary_round_aux F32.prec F32.emax s mx ex lx = S754_finite s m' e' /\
    2 ^ 23 <= Zpos m' < 2 ^ 24 /\
    ((e' = ex + d - 24 /\ mx / p2 <= Zpos m' <= mx / p2 + 1) \/
     (e' = ex + d - 23 /\ Zpos m' = 2 ^ 23 /\ mx / p2 = 2 ^ 24 - 1)).
Proof.
  intros Hd Hp2 Hmx He.
  assert (Hdig : Zdigits2 mx = d) by (apply Zdigits2_eq; [lia | exact Hmx]).
  assert (Hpos : 0 < mx).
  { assert (0 < 2 ^ (d - 1)) by (apply Z.pow_pos_nonneg; lia). lia. }
  assert (He1 : fexp F32.prec F32.emax (Zdigits2 mx + ex) = ex + d - 24)
    by (rewrite fexp32, Hdig; lia).
  destruct (binary_round_aux_spec s mx ex lx) as [r [Hr H]];
    [lia | rewrite He1; lia |].
  cbn zeta in Hr, H. rewrite He1 in Hr, H.
  replace (ex + d - 24 - ex) with (d - 24) in Hr by lia.
  rewrite <- Hp2 in Hr.
  assert (Hpow : 0 < p2) by (rewrite Hp2; apply Z.pow_pos_nonneg; lia).
  assert (Hq : 2 ^ 23 <= mx / p2 < 2 ^ 24).
  { split.
    - apply Z.div_le_lower_bound; [exact Hpow|].
      rewrite Hp2, <- Z.pow_add_r by lia.
      replace (d - 24 + 23) with (d - 1) by lia. apply Hmx.
    - apply Z.div_lt_upper_bound; [exact Hpow|].
      rewrite Hp2, <- Z.pow_add_r by lia.
      replace (d - 24 + 24) with d by lia. apply Hmx. }
  destruct H as [[Hlt [_ ->]] | [Hr24 ->]].
  - exists (Z.to_pos r), (ex + d - 24).
    rewrite rounded_finite by lia. rewrite Z2Pos.id by lia.
    split; [reflexivity|]. split; [lia|]. left. lia.
  - exists (Z.to_pos (2 ^ 23)), (ex + d - 23).
    replace (ex + d - 24 + 1) with (ex + d - 23) by lia.
    rewrite rounded_finite by lia.
    split; [reflexivity|]. split; [cbn; lia|]. right.
    split; [reflexivity|]. split; [reflexivity | lia].
Qed.

Lemma mul_normal (m1 m2 : positive) (e1 e2 d p2 : Z) :
  24 <= d -> p2 = 2 ^ (d - 24) ->
  2 ^ (d - 1) <= Zpos m1 * Zpos m2 < 2 ^ d ->
  -149 <= e1 + e2 + d - 24 < 104 ->
  exists m' e',
    F32.mul (S754_finite false m1 e1) (S754_finite false m2 e2)
      = S754_finite false m' e' /\
    2 ^ 23 <= Zpos m' < 2 ^ 24 /\
    ((e' = e1 + e2 + d - 24 /\
      Zpos m1 * Zpos m2 / p2 <= Zpos m' <= Zpos m1 * Zpos m2 / p2 + 1) \/
     (e' = e1 + e2 + d - 23 /\ Zpos m' = 2 ^ 23 /\
      Zpos m1 * Zpos m2 / p2 = 2 ^ 24 - 1)).
Proof.
  intros Hd Hp2 Hm He.
  change (F32.mul (S754_finite false m1 e1) (S754_finite false m2 e2))
    with (binary_round_aux F32.prec F32.emax false (Zpos (m1 * m2))
            (e1 + e2) loc_Exact).
  rewrite <- Pos2Z.inj_mul.
  apply binary_round_aux_normal; assumption.
Qed.

Lemma div_normal (m1 m2 : positive) (e1 e2 d p2 : Z) :
  2 ^ 23 <= Zpos m1 < 2 ^ 24 -> 2 ^ 23 <= Zpos m2 < 2 ^ 24 ->
  24 <= d -> p2 = 2 ^ (d - 24) ->
  2 ^ (d - 1) <= Zpos m1 * 2 ^ 24 / Zpos m2 < 2 ^ d ->
  -149 <= e1 - e2 - 24 ->
  -149 <= e1 - e2 + d - 48 < 104 ->
  exists m' e',
    F32.div (S754_finite false m1 e1) (S754_finite false m2 e2)
      = S754_finite false m' e' /\
    2 ^ 23 <= Zpos m' < 2 ^ 24 /\
    ((e' = e1 - e2 + d - 48 /\
      Zpos m1 * 2 ^ 24 / Zpos m2 / p2 <= Zpos m'
        <= Zpos m1 * 2 ^ 24 / Zpos m2 / p2 + 1) \/
     (e' = e1 - e2 + d - 47 /\ Zpos m' = 2 ^ 23 /\
      Zpos m1 * 2 ^ 24 / Zpos m2 / p2 = 2 ^ 24 - 1)).
Proof.
  intros Hm1 Hm2 Hd Hp2 Hq Hlow He.
  unfold F32.div, SFdiv, SFdiv_core_binary.
  rewrite (Zdigits2_eq (Zpos m1) 24), (Zdigits2_eq (Zpos m2) 24) by lia.
  rewrite fexp32, div_eucl_div.
  replace (Z.min (Z.max (24 + e1 - (24 + e2) - 24) (-149)) (e1 - e2))
    with (e1 - e2 - 24) by lia.
  replace (e1 - e2 - (e1 - e2 - 24)) with 24 by lia.
  rewrite Z.shiftl_mul_pow2 by lia. cbn [xorb].
  destruct (binary_round_aux_normal false (Zpos m1 * 2 ^ 24 / Zpos m2)
              (e1 - e2 - 24)
              (new_location (Zpos m2) ((Zpos m1 * 2 ^ 24) mod Zpos m2))
              d p2 Hd Hp2 Hq ltac:(lia)) as [m' [e' [Hr [Hm' H]]]].
  exists m', e'. split; [exact Hr|]. split; [exact Hm'|].
  destruct H as [[-> H] | [-> H]]; [left | right]; (split; [lia | exact H]).
Qed.

(** Order of two positive finite floats. *)
Lemma ltb_finite (m1 m2 : positive) (e1 e2 : Z) :
  F32.ltb (S754_finite false m1 e1) (S754_finite false m2 e2) = true <->
  e1 < e2 \/ (e1 = e2 /\ Zpos m1 < Zpos m2).
Proof.
  unfold F32.ltb, SFltb, SFcompare.
  change (Pos.compare_cont Eq m1 m2) with (Pos.compare m1 m2).
  destruct (Z.compare_spec e1 e2) as [He | He | He].
  - destruct (Pos.compare_spec m1 m2) as [Hm | Hm | Hm];
      split; intros H; try discriminate; try reflexivity; try lia.
  - split; intros _; [lia | reflexivity].
  - split; intros H; [discriminate | lia].
Qed.

Lemma betweenb_elim (lo hi : Z) (x : F32.float) :
  betweenb lo hi x = true ->
  exists m e, x = S754_finite false m e /\
    valid_binary F32.prec F32.emax x = true /\ e <= 0 /\
    lo * 2 ^ (- e) <= Zpos m <= hi * 2 ^ (- e).
Proof.
  destruct x as [s|s| |[|] m e]; try discriminate.
  unfold betweenb. rewrite !andb_true_iff, !Z.leb_le.
  intros [[[Hv He] Hlo] Hhi]. exists m, e. repeat split; assumption.
Qed.

Lemma betweenb_intro (lo hi : Z) (m : positive) (e : Z) :
  2 ^ 23 <= Zpos m < 2 ^ 24 -> -149 <= e <= 0 ->
  lo * 2 ^ (- e) <= Zpos m <= hi * 2 ^ (- e) ->
  betweenb lo hi (S754_finite false m e) = true.
Proof.
  intros Hm He Hb. unfold betweenb.
  rewrite !andb_true_iff, !Z.leb_le. repeat split; try lia.
  cbn [valid_binary]. unfold bounded, canonical_mantissa.
  change (Zpos (digits2_pos m)) with (Zdigits2 (Zpos m)).
  rewrite (Zdigits2_eq (Zpos m) 24) by lia.
  rewrite fexp32, andb_true_iff, Z.eqb_eq, Z.leb_le.
  change (F32.emax - F32.prec) with 104. lia.
Qed.

Lemma betweenb_weaken (a b lo hi : Z) (x : F32.float) :
  lo <= a -> b <= hi -> betweenb a b x = true -> betweenb lo hi x = true.
Proof.
  intros Ha Hb H. destruct x as [s|s| |[|] m e]; try discriminate.
  unfold betweenb in *. rewrite !andb_true_iff, !Z.leb_le in *.
  destruct H as [[[Hv He] Hlo] Hhi].
  assert (0 < 2 ^ (- e)) by (apply Z.pow_pos_nonneg; lia).
  repeat split; try assumption; nia.
Qed.

(** A float between two positive integers is a normal number. *)
Lemma betweenb_normal (lo hi : Z) (x : F32.float) :
  1 <= lo -> betweenb lo hi x = true ->
  exists m e, x = S754_finite false m e /\
    2 ^ 23 <= Zpos m < 2 ^ 24 /\ -149 <= e <= 0 /\
    lo * 2 ^ (- e) <= Zpos m <= hi * 2 ^ (- e).
Proof.
  intros Hlo H. destruct (betweenb_elim _ _ _ H) as [m [e [-> [Hv [He Hb]]]]].
  exists m, e. split; [reflexivity|].
  apply valid_finite in Hv. destruct Hv as [Hc _].
  destruct (Zdigits2_spec (Zpos m) ltac:(lia)) as [Hd [Hl Hh]].
  set (d := Zdigits2 (Zpos m)) in *.
  assert (Hpow : 0 < 2 ^ (- e)) by (apply Z.pow_pos_nonneg; lia).
  assert (Hd24 : d = 24).
  { destruct (Z.eq_dec d 24) as [E | E]; [exact E | exfalso].
    assert (He149 : e = -149) by lia.
    assert (H1 : 2 ^ d <= 2 ^ 23) by (apply Z.pow_le_mono_r; lia).
    rewrite He149 in Hb. change (- -149) with 149 in Hb. lia. }
  rewrite Hd24 in Hl, Hh. change (24 - 1) with 23 in Hl.
  repeat split; lia.
Qed.

Lemma betweenb_exponent (lo hi : Z) (x : F32.float) (k1 k2 : Z) :
  1 <= lo -> 0 <= k1 -> 0 <= k2 ->
  2 ^ 24 <= lo * 2 ^ (k1 + 1) -> hi * 2 ^ (k2 - 1) < 2 ^ 23 ->
  betweenb lo hi x = true ->
  exists m e, x = S754_finite false m e /\
    2 ^ 23 <= Zpos m < 2 ^ 24 /\ - k1 <= e <= - k2 /\
    lo * 2 ^ (- e) <= Zpos m <= hi * 2 ^ (- e).
Proof.
  intros Hlo Hk1 Hk2 H1 H2 H.
  destruct (betweenb_normal _ _ _ Hlo H) as [m [e [-> [Hm [He Hb]]]]].
  exists m, e. split; [reflexivity|]. split; [exact Hm|].
  split; [|exact Hb]. split.
  - destruct (Z_le_gt_dec (- k1) e) as [L | G]; [exact L | exfalso].
    assert (2 ^ (k1 + 1) <= 2 ^ (- e)) by (apply Z.pow_le_mono_r; lia).
    nia.
  - destruct (Z_le_gt_dec e (- k2)) as [L | G]; [exact L | exfalso].
    destruct (Z.eq_dec k2 0) as [E | E]; [lia|].
    assert (2 ^ (- e) <= 2 ^ (k2 - 1)) by (apply Z.pow_le_mono_r; lia).
    assert (0 < 2 ^ (- e)) by (apply Z.pow_pos_nonneg; lia).
    nia.
Qed.

Lemma round_half_even_between (n d a b : Z) :
  0 < d -> a * d <= n <= b * d -> a <= round_half_even n d <= b.
Proof.
  intros Hd [Ha Hb]. unfold round_half_even.
  pose proof (Z.div_mod n d ltac:(lia)) as Hdiv.
  pose proof (Z.mod_pos_bound n d Hd) as Hmod.
  set (q := n / d) in *. set (r := n mod d) in *.
  assert (Hq : a <= q) by nia.
  assert (Hq' : q <= b) by nia.
  assert (Hq1 : 0 < r -> q + 1 <= b) by nia.
  destruct (Z.compare_spec (2 * r) d) as [E | L | G].
  - destruct (Z.even q); lia.
  - lia.
  - lia.
Qed.

(** The rounding of a float between two integers lies between them. *)
Lemma lrintf_between (lo hi : Z) (x : F32.float) :
  betweenb lo hi x = true -> lo <= lrintf x <= hi.
Proof.
  intros H. destruct (betweenb_elim _ _ _ H) as [m [e [-> [_ [He Hb]]]]].
  unfold lrintf. destruct e as [|p|p]; try lia; cbv beta iota zeta.
  change (- Zneg p) with (Zpos p) in Hb.
  apply round_half_even_between; [apply Z.pow_pos_nonneg; lia | exact Hb].
Qed.

(* ================================================================== *)
(** ** The gain steps keep the gains in range                          *)
(* ================================================================== *)

(** Evaluate the closed exponents and powers of two in sight. *)
Ltac eval_pow :=
  repeat match goal with
  | |- context [S754_finite ?s ?m ?e] =>
      lazymatch e with
      | Zneg _ => fail | Zpos _ => fail | Z0 => fail
      | _ => let v := eval vm_compute in e in change e with v
      end
  end;
  repeat match goal with
  | |- context [2 ^ (- ?e)] =>
      let v := eval vm_compute in (2 ^ (- e)) in change (2 ^ (- e)) with v
  | H : context [2 ^ (- ?e)] |- _ =>
      let v := eval vm_compute in (2 ^ (- e)) in
      change (2 ^ (- e)) with v in H
  end.

(** One rounded multiplication of two 24-digit mantissas. *)
Ltac round_mul :=
  lazymatch goal with
  | |- context [F32.mul (S754_finite false ?m1 ?e1)
                        (S754_finite false ?m2 ?e2)] =>
  let go d p :=
    destruct (mul_normal m1 m2 e1 e2 d p)
      as (?m & ?e & -> & ?Hm & [[-> ?Hq] | [-> [?Hc ?Hq]]]);
    [lia | reflexivity | lia | lia | | ] in
  destruct (Z_lt_le_dec (Zpos m1 * Zpos m2) (2 ^ 47));
  [go 47 (2 ^ 23) | go 48 (2 ^ 24)]
  end.

(** One rounded division of two 24-digit mantissas. *)
Ltac round_div :=
  lazymatch goal with
  | |- context [F32.div (S754_finite false ?m1 ?e1)
                        (S754_finite false ?m2 ?e2)] =>
  let go d p :=
    destruct (div_normal m1 m2 e1 e2 d p)
      as (?m & ?e & -> & ?Hm & [[-> ?Hq] | [-> [?Hc ?Hq]]]);
    [lia | lia | lia | reflexivity | zlia | lia | lia | | ] in
  destruct (Z_lt_le_dec (Zpos m1 * 2 ^ 24 / Zpos m2) (2 ^ 24));
  [go 24 (2 ^ 0) | go 25 (2 ^ 1)]
  end.

Ltac exponent_cases e lo hi :=
  let H := fresh in
  assert (H : e = lo \/ lo + 1 <= e <= hi) by lia;
  destruct H as [-> | H];
  [ | first [ exfalso; lia | exponent_cases_next e lo hi ] ]
with exponent_cases_next e lo hi :=
  let lo' := eval vm_compute in (lo + 1) in exponent_cases e lo' hi.

Ltac scaled_gain_between :=
  round_mul; eval_pow; round_div; eval_pow;
  (apply betweenb_intro; [lia | lia | eval_pow; zlia]).

(** [gainD * 92 / 100.0f] of a gain between 10 and 200 stays under 200. *)
Lemma decrease_raw_between (g : F32.float) :
  betweenb 10 200 g = true ->
  betweenb 9 200
    (g * F32.of_Z (100 - AUTOTUNE_FIXED_WING_DECREASE_STEP) / f_100)%f32
  = true.
Proof.
  intros H.
  destruct (betweenb_exponent 10 200 g 20 16) as [m [e [-> [Hm [He Hb]]]]];
    [lia | lia | lia | lia | lia | exact H |].
  change (F32.of_Z (100 - AUTOTUNE_FIXED_WING_DECREASE_STEP))
    with (S754_finite false 12058624 (-17)).
  change f_100 with (S754_finite false 13107200 (-17)).
  exponent_cases e (-20) (-16); eval_pow; scaled_gain_between.
Qed.

(** [gainD * 105 / 100.0f] of a gain between 10 and 200 stays above 10. *)
Lemma increase_raw_between (g : F32.float) :
  betweenb 10 200 g = true ->
  betweenb 10 211
    (g * F32.of_Z (100 + AUTOTUNE_FIXED_WING_INCREASE_STEP) / f_100)%f32
  = true.
Proof.
  intros H.
  destruct (betweenb_exponent 10 200 g 20 16) as [m [e [-> [Hm [He Hb]]]]];
    [lia | lia | lia | lia | lia | exact H |].
  change (F32.of_Z (100 + AUTOTUNE_FIXED_WING_INCREASE_STEP))
    with (S754_finite false 13762560 (-17)).
  change f_100 with (S754_finite false 13107200 (-17)).
  exponent_cases e (-20) (-16); eval_pow; scaled_gain_between.
Qed.

Lemma not_ltb_finite (m1 m2 : positive) (e1 e2 : Z) :
  F32.ltb (S754_finite false m1 e1) (S754_finite false m2 e2) = false ->
  e2 < e1 \/ (e1 = e2 /\ Zpos m2 <= Zpos m1).
Proof.
  intros H.
  assert (N : ~ (e1 < e2 \/ (e1 = e2 /\ Zpos m1 < Zpos m2))).
  { rewrite <- ltb_finite, H. discriminate. }
  lia.
Qed.

Lemma fwDecrease_between (g : F32.float) :
  betweenb 10 200 g = true -> betweenb 10 200 (fwDecrease g) = true.
Proof.
  intros H. apply decrease_raw_between in H. unfold fwDecrease. cbv zeta.
  set (g' := (g * F32.of_Z (100 - AUTOTUNE_FIXED_WING_DECREASE_STEP)
              / f_100)%f32) in *.
  destruct (g' <? F32.of_Z AUTOTUNE_FIXED_WING_MIN_FF)%f32 eqn:E;
    [reflexivity|].
  destruct (betweenb_exponent 9 200 g' 20 16) as [m [e [Hg [Hm [He Hb]]]]];
    [lia | lia | lia | lia | lia | exact H |].
  rewrite Hg in E |- *.
  change (F32.of_Z AUTOTUNE_FIXED_WING_MIN_FF)
    with (S754_finite false 10485760 (-20)) in E.
  apply not_ltb_finite in E.
  exponent_cases e (-20) (-16); eval_pow;
    (apply betweenb_intro; [lia | lia | eval_pow; lia]).
Qed.

Lemma fwIncrease_between (g : F32.float) :
  betweenb 10 200 g = true -> betweenb 10 200 (fwIncrease g) = true.
Proof.
  intros H. apply increase_raw_between in H. unfold fwIncrease. cbv zeta.
  set (g' := (g * F32.of_Z (100 + AUTOTUNE_FIXED_WING_INCREASE_STEP)
              / f_100)%f32) in *.
  destruct (g' >? F32.of_Z AUTOTUNE_FIXED_WING_MAX_FF)%f32 eqn:E;
    [reflexivity|].
  destruct (betweenb_exponent 10 211 g' 20 16) as [m [e [Hg [Hm [He Hb]]]]];
    [lia | lia | lia | lia | lia | exact H |].
  rewrite Hg in E |- *.
  change (F32.of_Z AUTOTUNE_FIXED_WING_MAX_FF)
    with (S754_finite false 13107200 (-16)) in E.
  apply not_ltb_finite in E.
  exponent_cases e (-20) (-16); eval_pow;
    (apply betweenb_intro; [lia | lia | eval_pow; lia]).
Qed.

Lemma steppedGainD_between (st : pidAutotuneState_e) (g : F32.float) :
  betweenb 10 200 g = true -> betweenb 10 200 (steppedGainD st g) = true.
Proof.
  intros H. destruct st; cbn [steppedGainD];
    [exact H | apply fwIncrease_between, H | apply fwDecrease_between, H].
Qed.

(** The integral gain after [constrainf] lies between 1 and 50, whatever
    valid scale factors the configuration has. *)
Lemma constrainf_between (x : F32.float) :
  valid_binary F32.prec F32.emax x = true -> F32.is_nan x = false ->
  betweenb 1 50 (constrainf x f_1 f_50) = true.
Proof.
  intros Hv Hn. unfold constrainf.
  destruct (x <? f_1)%f32 eqn:E1; [reflexivity|].
  destruct (x >? f_50)%f32 eqn:E2; [reflexivity|].
  destruct x as [s|s| |[|] m e]; try discriminate;
    try (destruct s; discriminate).
  unfold F32.gtb in E2.
  change f_1 with (S754_finite false 8388608 (-23)) in E1.
  change f_50 with (S754_finite false 13107200 (-18)) in E2.
  apply not_ltb_finite in E1, E2.
  apply valid_finite in Hv. destruct Hv as [Hc _].
  destruct (Zdigits2_spec (Zpos m) ltac:(lia)) as [Hd [Hl Hh]].
  assert (Hd24 : Zdigits2 (Zpos m) = 24) by lia.
  rewrite Hd24 in Hl, Hh. change (24 - 1) with 23 in Hl.
  assert (He : -23 <= e <= -18) by lia.
  exponent_cases e (-23) (-18); eval_pow;
    (apply betweenb_intro; [lia | lia | eval_pow; lia]).
Qed.

Lemma betweenb_valid (lo hi : Z) (x : F32.float) :
  betweenb lo hi x = true ->
  valid_binary F32.prec F32.emax x = true /\ F32.is_nan x = false.
Proof.
  intros H. destruct (betweenb_elim _ _ _ H) as [m [e [-> [Hv _]]]].
  split; [exact Hv | reflexivity].
Qed.

Lemma derivedGainI_between (cfg : config) (g : F32.float) :
  finite_nonzero (FP_PID_RATE_FF_MULTIPLIER cfg) = true ->
  finite_nonzero (FP_PID_RATE_I_MULTIPLIER cfg) = true ->
  valid_binary F32.prec F32.emax (FP_PID_RATE_I_MULTIPLIER cfg) = true ->
  betweenb 10 200 g = true ->
  betweenb 1 50 (derivedGainI cfg g) = true.
Proof.
  intros HF HI HvI Hg. destruct (betweenb_valid _ _ _ Hg) as [_ Hn].
  unfold derivedGainI. apply constrainf_between.
  - apply mul_valid; [|exact HvI]. apply mul_valid; [|reflexivity].
    apply div_valid.
  - apply mul_finite_not_nan; [|exact HI].
    apply mul_finite_not_nan; [|reflexivity].
    apply div_finite_not_nan; assumption.
Qed.

(** Integers from 1 to 255 convert to floats of exactly their value. *)
Lemma of_Z_between (lo hi n : Z) :
  1 <= lo -> lo <= n <= hi -> hi <= 255 ->
  betweenb lo hi (F32.of_Z n) = true.
Proof.
  intros Hlo Hn Hhi.
  apply (betweenb_weaken n n); [lia | lia |].
  assert (H : forallb (fun k => betweenb k k (F32.of_Z k))
                (map Z.of_nat (seq 1 255)) = true) by (vm_compute; reflexivity).
  rewrite forallb_forall in H. apply H.
  apply in_map_iff. exists (Z.to_nat n). split; [lia|].
  apply in_seq. lia.
Qed.

(* ================================================================== *)
(** ** Gains written to the bank stay in range                         *)
(* ================================================================== *)

Lemma appliedGains_inRange t :
  workingInRange t -> gainsInRange (appliedGains t).
Proof.
  intros [HD HI]. apply lrintf_between in HD, HI.
  unfold gainsInRange, appliedGains. cbn [Pid8.D Pid8.I].
  unfold AUTOTUNE_FIXED_WING_MIN_FF, AUTOTUNE_FIXED_WING_MAX_FF in *.
  rewrite !uint8_small by lia. lia.
Qed.

Lemma seededAxis_inRange g t :
  gainsInRange g -> workingInRange (seededAxis g t).
Proof.
  intros [HD HI]. unfold workingInRange, seededAxis. cbn [gainD gainI].
  unfold AUTOTUNE_FIXED_WING_MIN_FF, AUTOTUNE_FIXED_WING_MAX_FF in *.
  split; apply of_Z_between; lia.
Qed.

Lemma startEffect_inRange w :
  (forall axis, gainsInRange (pidBank w (pidOfAxis axis))) ->
  sessionInRange (set_flightMode_AUTO_TUNE true (startEffect w)).
Proof.
  intros Hb. unfold startEffect, sessionInRange. effect_fields.
  split; [|exact Hb].
  intros a; destruct a; cbn [nth_axis at_roll at_pitch at_yaw];
    split; apply seededAxis_inRange;
    first [apply (Hb FD_ROLL) | apply (Hb FD_PITCH) | apply (Hb FD_YAW)].
Qed.

Lemma session_tick_keeps_range rcModeAutotune armed w :
  sessionInRange w ->
  sessionInRange (updateStateEffect rcModeAutotune armed w).
Proof.
  intros [Ha Hb]. unfold updateStateEffect.
  destruct (rcModeAutotune && armed).
  - destruct (flightMode_AUTO_TUNE w).
    + unfold checkEffect, sessionInRange.
      destruct (uint32 (currentTime w - lastGainsUpdateTime w)
                <? AUTOTUNE_SAVE_PERIOD); effect_fields.
      * split; assumption.
      * split; [intros a; split; apply Ha|].
        intros a; destruct a; apply appliedGains_inRange, Ha.
    + apply startEffect_inRange, Hb.
  - unfold sessionInRange. destruct (flightMode_AUTO_TUNE w); effect_fields.
    + split; [exact Ha|].
      intros a; destruct a; apply appliedGains_inRange, Ha.
    + split; assumption.
Qed.

Lemma axis_tick_keeps_range cfg axis d r o w :
  finite_nonzero (FP_PID_RATE_FF_MULTIPLIER cfg) = true ->
  finite_nonzero (FP_PID_RATE_I_MULTIPLIER cfg) = true ->
  valid_binary F32.prec F32.emax (FP_PID_RATE_I_MULTIPLIER cfg) = true ->
  sessionInRange w -> sessionInRange (fwEffect cfg axis d r o w).
Proof.
  intros HF HI HvI [Ha Hb].
  destruct (fw_frame cfg axis d r o w) as (Hs & _).
  assert (Hcur : forall a,
            workingInRange (tuneCurrent (fwEffect cfg axis d r o w) a)).
  { intros a. destruct (axis_eq_dec axis a) as [<-|Hne];
      [|rewrite fw_other_axis by exact Hne; apply Ha].
    pose proof (fw_gains cfg axis d r o w) as Hg. cbv zeta in Hg.
    destruct (Ha axis) as ((HD & HIr) & _).
    destruct (gainsUpdated cfg w axis d r o).
    - destruct Hg as (HD' & _ & HI').
      assert (HDn : betweenb 10 200
                (gainD (tuneCurrent (fwEffect cfg axis d r o w) axis)) = true)
        by (rewrite HD'; apply steppedGainD_between, HD).
      split; [exact HDn|].
      rewrite HI'. apply derivedGainI_between; assumption.
    - destruct Hg as (_ & HI' & HD'). split; congruence. }
  split.
  - intros a. split; [apply Hcur | rewrite Hs; apply Ha].
  - pose proof (fw_bank cfg axis d r o w) as Hw. cbv zeta in Hw.
    destruct (gainsUpdated cfg w axis d r o).
    + destruct Hw as (Hw & _). intros a. rewrite Hw.
      apply appliedGains_inRange, Hcur.
    + destruct Hw as (Hw & _). rewrite Hw. exact Hb.
Qed.



